(** * taskmd: Tekton Task manifests rendered as Markdown

    A shallow embedding of the two [package main] programs of the
    repository: the file-based pipeline ([src/main.go]) and the
    resource-set pipeline (the second source file, built on kustomize).
    Go strings are byte strings and are modelled by [string]; a Go
    [map[string]string] is a [gmap string string]; a Go function that
    returns [error] and mutates a [*strings.Builder] or the file system is
    a computation in the state-and-error monad [M]. *)

From Stdlib Require Import ZArith Ascii String.
From stdpp Require Import gmap strings list.

Local Open Scope Z_scope.
Local Open Scope string_scope.

#[local] Arguments String.append !s1 s2 : simpl nomatch.

(** ** Go values and effects *)

(** A Go [error] value.  [Errorf] is [fmt.Errorf]; [PathError] is the
    [*fs.PathError] of the [os] package (operation and path);
    [DecodeError] stands for what a YAML/JSON decoder reports. *)
Inductive error : Type :=
  | Errorf (msg : string)
  | PathError (op path : string)
  | DecodeError (msg : string).

(** The outcome of a call that returns [(A, error)]. *)
Inductive result (A : Type) : Type :=
  | Ok (a : A)
  | Err (e : error).
Arguments Ok {A} a.
Arguments Err {A} e.

(** Computations over a mutable state [S] (a [strings.Builder], the file
    system) that may return an error.  The state survives an error: what
    was written before the failing call stays written. *)
Definition M (S A : Type) : Type := S -> result A * S.

Definition ret {S A} (a : A) : M S A := fun s => (Ok a, s).

Definition fail {S A} (e : error) : M S A := fun s => (Err e, s).

Definition bind {S A B} (c : M S A) (k : A -> M S B) : M S B :=
  fun s =>
    match c s with
    | (Ok a, s') => k a s'
    | (Err e, s') => (Err e, s')
    end.

Declare Scope go_scope.
Delimit Scope go_scope with go.
Notation "x <- c ;; k" := (bind c (fun x => k))
  (at level 100, c at next level, right associativity) : go_scope.
Notation "c ;; k" := (bind c (fun _ => k))
  (at level 100, right associativity) : go_scope.
Local Open Scope go_scope.

(** [for _, x := range xs { body }] where the body returns early only
    with an error. *)
Fixpoint forRange {S A} (xs : list A) (body : A -> M S unit) : M S unit :=
  match xs with
  | [] => ret tt
  | x :: xs' => body x ;; forRange xs' body
  end.

(** [for i, x := range xs { body }], the index counted from [i]. *)
Fixpoint forRangeFrom {S A} (i : Z) (xs : list A) (body : Z -> A -> M S unit)
  : M S unit :=
  match xs with
  | [] => ret tt
  | x :: xs' => body i x ;; forRangeFrom (i + 1) xs' body
  end.

Definition forRangeIndexed {S A} (xs : list A) (body : Z -> A -> M S unit)
  : M S unit :=
  forRangeFrom 0 xs body.

(** [len(xs)] as a Go [int]. *)
Definition len {A} (xs : list A) : Z := Z.of_nat (length xs).

(** The line feed, and a Go interpreted string literal: [go "a\n"] is the
    Go literal ["a\n"], with the escapes the program uses resolved. *)
Definition LF : ascii := "010"%char.

Fixpoint go (lit : string) : string :=
  match lit with
  | EmptyString => EmptyString
  | String "\" (String "n" rest) => String LF (go rest)
  | String c rest => String c (go rest)
  end.

(** [fmt.Sprintf] for the formats of the program: every verb is [%v] and
    every operand is a string, which [%v] prints verbatim.  A verb
    without an operand prints as Go does. *)
Fixpoint Sprintf (format : string) (args : list string) : string :=
  match format with
  | EmptyString => EmptyString
  | String "%" (String "v" rest) =>
      match args with
      | a :: args' => a +:+ Sprintf rest args'
      | [] => "%!v(MISSING)" +:+ Sprintf rest []
      end
  | String c rest => String c (Sprintf rest args)
  end.

(** [strings.Builder]: the bytes written so far.  [WriteString] appends
    and returns the number of bytes written; its error is always nil. *)
Definition Builder : Type := string.

Definition WriteString (s : string) : M Builder Z :=
  fun stringBuilder => (Ok (Z.of_nat (String.length s)), stringBuilder +:+ s).

(** How a [main] ends: by returning (exit status 0) or through
    [log.Fatal], which prints its message on standard error and exits
    with status 1. *)
Inductive exit : Type :=
  | Exit0
  | Fatal (message : string).

(** A call that either returns to its caller or ends the process. *)
Inductive returned (A : Type) : Type :=
  | Return (a : A)
  | Exited (e : exit).
Arguments Return {A} a.
Arguments Exited {A} e.

(** ** The Tekton data model *)

(** Modelled from the spec: the Tekton [pipeline/v1] types are imported
    by the program, not declared in it.  The records keep the fields the
    program reads (spec section 3), under their Go names.  [ParamValue]
    carries its discriminator [Type] as a string next to the three
    payloads, as the Go struct does. *)
Record ParamValue : Type := mkParamValue {
  Type_ : string;
  StringVal : string;
  ArrayVal : list string;
  ObjectVal : gmap string string
}.

Record ParamSpec : Type := mkParamSpec {
  param_Name : string;
  param_Description : string;
  Default : option ParamValue
}.

Record WorkspaceDeclaration : Type := mkWorkspaceDeclaration {
  workspace_Name : string;
  workspace_Description : string;
  Optional : bool
}.

Record TaskResult : Type := mkTaskResult {
  result_Name : string;
  result_Description : string
}.

Record TaskSpec : Type := mkTaskSpec {
  Description : string;
  Params : list ParamSpec;
  Workspaces : list WorkspaceDeclaration;
  Results : list TaskResult
}.

Record Task : Type := mkTask {
  Name : string;
  Spec : TaskSpec
}.

(** The three values of the discriminator that the decoder produces. *)
Definition String_ (s : string) : ParamValue := mkParamValue "string" s [] ∅.
Definition Array (items : list string) : ParamValue :=
  mkParamValue "array" "" items ∅.
Definition Object (m : gmap string string) : ParamValue :=
  mkParamValue "object" "" [] m.

(** ** The file system *)

(** The [os] package over a file system that holds regular files only: a
    path names at most one file, and two different path strings name
    different files.  Directories are not recorded, so [MkdirAll] fails
    only where a file is in the way.  No call fails for lack of
    permission or space. *)
Abbreviation FS := (gmap string string).

(** An open [*os.File]: the path it was created at. *)
Definition File : Type := string.

Record FileInfo : Type := mkFileInfo { fi_name : string }.

(** The last element of a path, as [os.Stat] reports it in
    [FileInfo.Name]: trailing slashes are dropped (but not the first
    byte), then everything up to the last slash. *)
Fixpoint trimSlashes (rev_name : list ascii) : list ascii :=
  match rev_name with
  | "/"%char :: ((_ :: _) as r) => trimSlashes r
  | _ => rev_name
  end.

Fixpoint leadingElement (rev_name : list ascii) : list ascii :=
  match rev_name with
  | [] => []
  | "/"%char :: _ => []
  | c :: r => c :: leadingElement r
  end.

Definition basename (name : string) : string :=
  match trimSlashes (reverse (list_ascii_of_string name)) with
  | [] => ""
  | c :: r => string_of_list_ascii (reverse (c :: leadingElement r))
  end.

Definition under (dir path : string) : bool :=
  String.eqb path dir || String.prefix (dir +:+ "/") path.

Definition ReadFile (name : string) : M FS string :=
  fun fs =>
    match fs !! name with
    | Some bytes => (Ok bytes, fs)
    | None => (Err (PathError "open" name), fs)
    end.

Definition Stat (name : string) : M FS FileInfo :=
  fun fs =>
    match fs !! name with
    | Some _ => (Ok (mkFileInfo (basename name)), fs)
    | None => (Err (PathError "stat" name), fs)
    end.

(** [os.Create] creates the file or truncates it. *)
Definition Create (name : string) : M FS File :=
  fun fs => (Ok name, <[name := ""]> fs).

(** [File.Write] and [File.WriteString] append at the end of what the
    same handle wrote before. *)
Definition File_Write (f : File) (bytes : string) : M FS Z :=
  fun fs =>
    (Ok (Z.of_nat (String.length bytes)),
     <[f := default "" (fs !! f) +:+ bytes]> fs).

Definition File_WriteString (f : File) (s : string) : M FS Z :=
  File_Write f s.

Definition MkdirAll (path : string) : M FS unit :=
  fun fs =>
    match fs !! path with
    | Some _ => (Err (PathError "mkdir" path), fs)
    | None => (Ok tt, fs)
    end.

Definition RemoveAll (path : string) : M FS unit :=
  fun fs => (Ok tt, filter (fun kv => under path kv.1 = false) fs).

(** ** The file-based pipeline ([src/main.go]) *)

Module FileBased.

Record TaskBundle : Type := mkTaskBundle {
  path : string;
  task : Task
}.

(** The [case "array"] branch of [stringifyParam], on its own local
    builder (lines 267-291). *)
Definition stringifyParam_array (param : ParamValue) : M Builder unit :=
  _ <- WriteString "[" ;;
  forRangeIndexed (ArrayVal param) (fun i s =>
    let formatString :=
      if Z.eqb i (len (ArrayVal param) - 1) then "%v, " else "%v" in
    _ <- WriteString (Sprintf formatString [s]) ;;
    ret tt) ;;
  _ <- WriteString "]" ;;
  ret tt.

(** [stringifyParam]: a nil pointer is [None].  The array branch has no
    [return] of its own: after the switch the function returns the empty
    string (line 296), whatever the local builder holds. *)
Definition stringifyParam (param : option ParamValue) : string * option error :=
  match param with
  | None => ("", Some (Errorf "cannot stringify nil param value"))
  | Some param =>
      if String.eqb (Type_ param) "string" then (StringVal param, None)
      else if String.eqb (Type_ param) "array" then
        match stringifyParam_array param "" with
        | (Err err, _) => ("", Some err)
        | (Ok _, _) => ("", None)
        end
      else if String.eqb (Type_ param) "object" then ("{}", None)
      else ("", None)
  end.

Definition generateResults (taskBundle : TaskBundle) : M Builder unit :=
  _ <- WriteString (go "## Results\n") ;;
  forRange (Results (Spec (task taskBundle))) (fun result =>
    _ <- WriteString (Sprintf (go "* **%v**: %v\n")
                        [result_Name result; result_Description result]) ;;
    ret tt).

Definition generateWorkspaces (taskBundle : TaskBundle) : M Builder unit :=
  _ <- WriteString (go "## Workspaces\n") ;;
  forRange (Workspaces (Spec (task taskBundle))) (fun workspace =>
    let formatString :=
      if Optional workspace
      then go "* **%v** (optional): %v\n"
      else go "* **%v**: %v\n" in
    _ <- WriteString (Sprintf formatString
                        [workspace_Name workspace;
                         workspace_Description workspace]) ;;
    ret tt) ;;
  _ <- WriteString (go "\n") ;;
  ret tt.

Definition generateInputs (taskBundle : TaskBundle) : M Builder unit :=
  _ <- WriteString (go "## Parameters\n") ;;
  forRange (Params (Spec (task taskBundle))) (fun param =>
    match Default param with
    | Some _ =>
        match stringifyParam (Default param) with
        | (_, Some err) => fail err
        | (paramString, None) =>
            _ <- WriteString (Sprintf (go "* **%v**: %v `(Default: %v)`\n")
                                [param_Name param; param_Description param;
                                 paramString]) ;;
            ret tt
        end
    | None =>
        _ <- WriteString (Sprintf (go "* **%v**: %v\n")
                            [param_Name param; param_Description param]) ;;
        ret tt
    end) ;;
  _ <- WriteString (go "\n") ;;
  ret tt.

Definition generateDescription (taskBundle : TaskBundle) : M Builder unit :=
  _ <- WriteString (Description (Spec (task taskBundle))) ;;
  _ <- WriteString (go "\n\n") ;;
  ret tt.

Definition generateHeader (taskBundle : TaskBundle) : M Builder unit :=
  _ <- WriteString (Sprintf (go "# `%v`\n\n") [Name (task taskBundle)]) ;;
  ret tt.

Definition writeGenerateMarkdown (taskBundle : TaskBundle)
    (stringBuilder : Builder) : M FS unit :=
  MkdirAll (Sprintf "taskmd.out/%v" [Name (task taskBundle)]) ;;
  readmeFile <- Create (Sprintf "taskmd.out/%v/README.md"
                          [Name (task taskBundle)]) ;;
  _ <- File_WriteString readmeFile stringBuilder ;;
  stat <- Stat (path taskBundle) ;;
  bytes <- ReadFile (path taskBundle) ;;
  taskFile <- Create (Sprintf "taskmd.out/%v/%v"
                        [Name (task taskBundle); fi_name stat]) ;;
  _ <- File_Write taskFile bytes ;;
  ret tt.

(** The five generate calls of the loop body of
    [GenerateMarkdownToDirectory] (lines 81-105), on the builder of one
    task. *)
Definition generateDocument (taskBundle : TaskBundle) : M Builder unit :=
  generateHeader taskBundle ;;
  generateDescription taskBundle ;;
  generateInputs taskBundle ;;
  generateWorkspaces taskBundle ;;
  generateResults taskBundle.

Definition GenerateMarkdownToDirectory (tasks : list TaskBundle) : M FS unit :=
  RemoveAll "taskmd.out" ;;
  MkdirAll "taskmd.out" ;;
  forRange tasks (fun taskBundle fs =>
    match generateDocument taskBundle "" with
    | (Err err, _) => (Err err, fs)
    | (Ok _, stringBuilder) => writeGenerateMarkdown taskBundle stringBuilder fs
    end).

Section Loader.

(** [yaml.Unmarshal] into a zero [Task]: the decoder is a collaborator of
    the program. *)
Variable yaml_Unmarshal : string -> result Task.

(** [LoadAllTasks]: the loop, from the bundles appended so far.  The nil
    slice of [return nil, err] is the empty list. *)
Fixpoint LoadAllTasks_from (tasks : list TaskBundle) (paths : list string)
    (fs : FS) : list TaskBundle * option error :=
  match paths with
  | [] => (tasks, None)
  | path :: paths' =>
      match ReadFile path fs with
      | (Err err, _) => ([], Some err)
      | (Ok bytes, _) =>
          match yaml_Unmarshal bytes with
          | Err err => ([], Some err)
          | Ok task =>
              LoadAllTasks_from (tasks ++ [mkTaskBundle path task]) paths' fs
          end
      end
  end.

Definition LoadAllTasks (paths : list string) (fs : FS)
  : list TaskBundle * option error :=
  LoadAllTasks_from [] paths fs.

(** [run], with [os.Args[1:]] as its argument. *)
Definition run (paths : list string) : M FS unit :=
  fun fs =>
    match LoadAllTasks paths fs with
    | (_, Some err) => (Err err, fs)
    | (tasks, None) => GenerateMarkdownToDirectory tasks fs
    end.

End Loader.

Section Program.

Variable yaml_Unmarshal : string -> result Task.

(** The [Error] method of the error values: the message of an error. *)
Variable Error : error -> string.

(** [main], with [os.Args] as its argument: the program name, then the
    paths. *)
Definition main (args : list string) (fs : FS) : exit * FS :=
  if Z.leb (len args) 1 then (Fatal "usage: taskmd [task-files]", fs)
  else
    match run yaml_Unmarshal (drop 1 args) fs with
    | (Err err, fs') => (Fatal (Error err), fs')
    | (Ok _, fs') => (Exit0, fs')
    end.

End Program.

End FileBased.

(** ** The resource-set pipeline (the kustomize program) *)

Module ResourceSet.

Definition stringifyParam_array (param : ParamValue) : M Builder unit :=
  _ <- WriteString "[" ;;
  forRangeIndexed (ArrayVal param) (fun i s =>
    let formatString :=
      if Z.eqb i (len (ArrayVal param) - 1) then "%v, " else "%v" in
    _ <- WriteString (Sprintf formatString [s]) ;;
    ret tt) ;;
  _ <- WriteString "]" ;;
  ret tt.

Definition stringifyParam (param : option ParamValue) : string * option error :=
  match param with
  | None => ("", Some (Errorf "cannot stringify nil param value"))
  | Some param =>
      if String.eqb (Type_ param) "string" then (StringVal param, None)
      else if String.eqb (Type_ param) "array" then
        match stringifyParam_array param "" with
        | (Err err, _) => ("", Some err)
        | (Ok _, _) => ("", None)
        end
      else if String.eqb (Type_ param) "object" then ("{}", None)
      else ("", None)
  end.

Definition generateResults (task : Task) : M Builder unit :=
  _ <- WriteString (go "## Results\n") ;;
  forRange (Results (Spec task)) (fun result =>
    _ <- WriteString (Sprintf (go "* **%v**: %v\n")
                        [result_Name result; result_Description result]) ;;
    ret tt).

Definition generateWorkspaces (task : Task) : M Builder unit :=
  _ <- WriteString (go "## Workspaces\n") ;;
  forRange (Workspaces (Spec task)) (fun workspace =>
    let formatString :=
      if Optional workspace
      then go "* **%v** (optional): %v\n"
      else go "* **%v**: %v\n" in
    _ <- WriteString (Sprintf formatString
                        [workspace_Name workspace;
                         workspace_Description workspace]) ;;
    ret tt) ;;
  _ <- WriteString (go "\n") ;;
  ret tt.

Definition generateInputs (task : Task) : M Builder unit :=
  _ <- WriteString (go "## Parameters\n") ;;
  forRange (Params (Spec task)) (fun param =>
    match Default param with
    | Some _ =>
        match stringifyParam (Default param) with
        | (_, Some err) => fail err
        | (paramString, None) =>
            _ <- WriteString (Sprintf (go "* **%v**: %v `(Default: %v)`\n")
                                [param_Name param; param_Description param;
                                 paramString]) ;;
            ret tt
        end
    | None =>
        _ <- WriteString (Sprintf (go "* **%v**: %v\n")
                            [param_Name param; param_Description param]) ;;
        ret tt
    end) ;;
  _ <- WriteString (go "\n") ;;
  ret tt.

Definition generateDescription (task : Task) : M Builder unit :=
  _ <- WriteString (Description (Spec task)) ;;
  _ <- WriteString (go "\n\n") ;;
  ret tt.

Definition generateHeader (task : Task) : M Builder unit :=
  _ <- WriteString (Sprintf (go "# `%v`\n\n") [Name task]) ;;
  ret tt.

Definition writeGenerateMarkdown (task : Task) (stringBuilder : Builder)
  : M FS unit :=
  file <- Create (Sprintf "taskmd.out/%v.md" [Name task]) ;;
  _ <- File_WriteString file stringBuilder ;;
  ret tt.

(** The five generate calls of the loop body of
    [GenerateMarkdownToDirectory] (lines 106-130). *)
Definition generateDocument (task : Task) : M Builder unit :=
  generateHeader task ;;
  generateDescription task ;;
  generateInputs task ;;
  generateWorkspaces task ;;
  generateResults task.

Definition GenerateMarkdownToDirectory (tasks : list Task) : M FS unit :=
  MkdirAll "taskmd.out" ;;
  forRange tasks (fun task fs =>
    match generateDocument task "" with
    | (Err err, _) => (Err err, fs)
    | (Ok _, stringBuilder) => writeGenerateMarkdown task stringBuilder fs
    end).

Section Builder.

(** The kustomize side of the program: a resource, its kind, its JSON
    form, and the JSON decoder into a zero [Task]. *)
Variable Resource : Type.
Variable GetKind : Resource -> string.
Variable MarshalJSON : Resource -> result string.
Variable json_Unmarshal : string -> result Task.

(** [ResourceToType(res, &task)]: the task written through the pointer,
    or the error. *)
Definition ResourceToType (resource : Resource) : result Task :=
  match MarshalJSON resource with
  | Err err => Err err
  | Ok bytes => json_Unmarshal bytes
  end.

(** [GetAllTasksFromResourceMap]: the loop over
    [resourceMap.Resources()], from the tasks appended so far. *)
Fixpoint GetAllTasksFromResourceMap_from (tasks : list Task)
    (resources : list Resource) : list Task * option error :=
  match resources with
  | [] => (tasks, None)
  | res :: resources' =>
      if negb (String.eqb (GetKind res) "Task") then (tasks, None)
      else
        match ResourceToType res with
        | Err err => (tasks, Some err)
        | Ok task => GetAllTasksFromResourceMap_from (tasks ++ [task]) resources'
        end
  end.

Definition GetAllTasksFromResourceMap (resourceMap : list Resource)
  : list Task * option error :=
  GetAllTasksFromResourceMap_from [] resourceMap.

End Builder.

Section Program.

Variable Resource : Type.
Variable GetKind : Resource -> string.
Variable MarshalJSON : Resource -> result string.
Variable json_Unmarshal : string -> result Task.

(** [Kustomizer.Run] on the disk: the resources of the build, in the
    order the build emits them, or its error. *)
Variable krusty_Run : FS -> string -> result (list Resource).

(** The [Error] method of the error values: the message of an error. *)
Variable Error : error -> string.

Definition KustomizeBuild (path : string) (fs : FS)
  : list Resource * option error :=
  match krusty_Run fs path with
  | Err err => ([], Some err)
  | Ok resourceMap => (resourceMap, None)
  end.

(** [run], with [os.Args[1]] as its argument.  The first two errors end
    the process inside [run]; the third is returned. *)
Definition run (kustomizePath : string) (fs : FS)
  : returned (option error) * FS :=
  match KustomizeBuild kustomizePath fs with
  | (_, Some err) => (Exited (Fatal (Error err)), fs)
  | (resourceMap, None) =>
      match GetAllTasksFromResourceMap
              Resource GetKind MarshalJSON json_Unmarshal resourceMap with
      | (_, Some err) => (Exited (Fatal (Error err)), fs)
      | (tasks, None) =>
          match GenerateMarkdownToDirectory tasks fs with
          | (Err err, fs') => (Return (Some err), fs')
          | (Ok _, fs') => (Return None, fs')
          end
      end
  end.

Definition main (args : list string) (fs : FS) : exit * FS :=
  if negb (Z.eqb (len args) 2) then (Fatal "usage: taskmd [kustomize-dir]", fs)
  else
    match run (nth 1 args "") fs with
    | (Exited e, fs') => (e, fs')
    | (Return (Some err), fs') => (Fatal (Error err), fs')
    | (Return None, fs') => (Exit0, fs')
    end.

End Program.

End ResourceSet.

(** ** Vocabulary of the statements *)

(** The concatenation of the lines of a section. *)
Fixpoint concat_strings (lines : list string) : string :=
  match lines with
  | [] => ""
  | l :: lines' => l +:+ concat_strings lines'
  end.

(** [emits c text]: from every builder, [c] returns without an error
    after appending exactly [text]. *)
Definition emits {A} (c : M Builder A) (text : string) : Prop :=
  forall stringBuilder,
    exists a, c stringBuilder = (Ok a, stringBuilder +:+ text).

(** What [stringifyParam_array] leaves in its builder: the items one
    after the other, [", "] after the last one only, between brackets. *)
Definition bracketed (items : list string) : string :=
  "[" +:+ concat_strings items
      +:+ (match items with [] => "" | _ :: _ => ", " end) +:+ "]".

(** The bullet the loop of [generateInputs] writes for one parameter,
    the loop of [generateWorkspaces] for one workspace and the loop of
    [generateResults] for one result, as closed texts. *)
Definition param_line (param : ParamSpec) : string :=
  match Default param with
  | Some value =>
      "* **" +:+ param_Name param +:+ "**: " +:+ param_Description param
        +:+ " `(Default: " +:+ (FileBased.stringifyParam (Some value)).1
        +:+ ")`" +:+ go "\n"
  | None =>
      "* **" +:+ param_Name param +:+ "**: " +:+ param_Description param
        +:+ go "\n"
  end.

Definition workspace_line (workspace : WorkspaceDeclaration) : string :=
  "* **" +:+ workspace_Name workspace
    +:+ (if Optional workspace then "** (optional): " else "**: ")
    +:+ workspace_Description workspace +:+ go "\n".

Definition result_line (result : TaskResult) : string :=
  "* **" +:+ result_Name result +:+ "**: " +:+ result_Description result
    +:+ go "\n".

(** A bullet of a section: one line that starts with the bold mark. *)
Definition bullet (line : string) : Prop :=
  exists body, line = "* **" +:+ body +:+ go "\n".

(** The task of the end-to-end example of the spec, extended with two
    parameters that have defaults and a second workspace. *)
Definition build_task : Task :=
  mkTask "build"
    (mkTaskSpec "Builds the app."
       [mkParamSpec "image" "" None;
        mkParamSpec "tag" "The tag." (Some (String_ "latest"));
        mkParamSpec "args" "Extra flags." (Some (Array ["-a"; "-b"]))]
       [mkWorkspaceDeclaration "source" "" true;
        mkWorkspaceDeclaration "cache" "Build cache." false]
       [mkTaskResult "digest" ""]).

Definition build_bundle : FileBased.TaskBundle :=
  FileBased.mkTaskBundle "build.yaml" build_task.

(** A bundle with one parameter without a default and one with a string
    default. *)
Definition tag_bundle : FileBased.TaskBundle :=
  FileBased.mkTaskBundle "tag.yaml"
    (mkTask "tag"
       (mkTaskSpec "Tags the image."
          [mkParamSpec "image" "The image." None;
           mkParamSpec "tag" "The tag." (Some (String_ "latest"))]
          [] [])).

(** What one iteration of the loop of [LoadAllTasks] obtains for a path:
    the decoded task, or the error of the read or of the decoder. *)
Definition loads (yaml_Unmarshal : string -> result Task) (fs : FS)
    (path : string) : result Task :=
  match ReadFile path fs with
  | (Ok bytes, _) => yaml_Unmarshal bytes
  | (Err err, _) => Err err
  end.

(** A toy decoder and a toy resource set for the examples: a document
    that starts with [name: ] decodes to the task of that name. *)
Definition toy_Unmarshal (bytes : string) : result Task :=
  if String.prefix "name: " bytes
  then Ok (mkTask (String.substring 6 (String.length bytes - 6) bytes)
                  (mkTaskSpec "" [] [] []))
  else Err (DecodeError "no name").

Definition toy_resources : list (string * string) :=
  [("Task", "name: build"); ("Pipeline", "name: ci"); ("Task", "name: test")].

Definition toy_fs : FS :=
  {["build.yaml" := "name: build"; "test.yaml" := "name: test";
    "broken.yaml" := "kind: ?"]}.

(** The task of the end-to-end example of the spec, as written. *)
Definition spec_example_bundle : FileBased.TaskBundle :=
  FileBased.mkTaskBundle "build.yaml"
    (mkTask "build"
       (mkTaskSpec "Builds the app."
          [mkParamSpec "image" "" None]
          [mkWorkspaceDeclaration "source" "" true]
          [mkTaskResult "digest" ""])).

(** A bundle whose parameters have an object default, an array default
    and a default of a type the decoder does not produce. *)
Definition defaults_bundle : FileBased.TaskBundle :=
  FileBased.mkTaskBundle "defaults.yaml"
    (mkTask "defaults"
       (mkTaskSpec ""
          [mkParamSpec "env" "Environment." (Some (Object {["a" := "b"]}));
           mkParamSpec "args" "Flags." (Some (Array ["-a"; "-b"]));
           mkParamSpec "odd" "Odd." (Some (mkParamValue "number" "7" [] ∅))]
          [] [])).

(** The two paths [writeGenerateMarkdown] writes for a bundle. *)
Definition readme_path (taskBundle : FileBased.TaskBundle) : string :=
  "taskmd.out/" +:+ Name (FileBased.task taskBundle) +:+ "/README.md".

Definition copy_path (taskBundle : FileBased.TaskBundle) : string :=
  "taskmd.out/" +:+ Name (FileBased.task taskBundle) +:+ "/"
    +:+ basename (FileBased.path taskBundle).

(** A manifest that is itself called [README.md]. *)
Definition readme_named_bundle : FileBased.TaskBundle :=
  FileBased.mkTaskBundle "tasks/build/README.md" build_task.

Definition readme_named_fs : FS :=
  {["tasks/build/README.md" := "name: build"]}.

(** The text [GenerateMarkdownToDirectory] renders for a bundle, and for
    a task in the resource-set program, on the fresh builder of the loop
    body. *)
Definition document (taskBundle : FileBased.TaskBundle) : string :=
  (FileBased.generateDocument taskBundle "").2.

Definition task_document (task : Task) : string :=
  (ResourceSet.generateDocument task "").2.

(** The file the resource-set program writes for a task. *)
Definition md_path (task : Task) : string :=
  "taskmd.out/" +:+ Name task +:+ ".md".

(** A file system with the output of an earlier run, and a second
    bundle. *)
Definition stale_fs : FS :=
  {["build.yaml" := "name: build";
    "taskmd.out/old/README.md" := "# `old`";
    "taskmd.out/old/old.yaml" := "name: old"]}.

Definition test_bundle : FileBased.TaskBundle :=
  FileBased.mkTaskBundle "test.yaml" (mkTask "test" (mkTaskSpec "" [] [] [])).

(** Two tasks of the same name, and a file system with a document of an
    earlier run. *)
Definition first_build : Task := mkTask "build" (mkTaskSpec "first" [] [] []).
Definition test_task : Task := mkTask "test" (mkTaskSpec "" [] [] []).

Definition docs_fs : FS :=
  {["taskmd.out/old.md" := "# `old`"; "notes.txt" := "keep"]}.

(** The message of an error, for the examples. *)
Definition toy_Error (err : error) : string :=
  match err with
  | Errorf msg => msg
  | PathError op path => op +:+ " " +:+ path
  | DecodeError msg => msg
  end.


(** A toy build for the examples: the directory name selects the
    resources. *)
Definition toy_Run (fs : FS) (dir : string)
  : result (list (string * string)) :=
  if String.eqb dir "good" then Ok toy_resources
  else if String.eqb dir "bad"
  then Ok [("Task", "name: build"); ("Task", "kind: ?"); ("Task", "name: test")]
  else Err (PathError "open" dir).

(** ** Strings and builders *)

Lemma string_app_assoc (a b c : string) : (a +:+ b) +:+ c = a +:+ (b +:+ c).
Proof.
  induction a as [|x a IH]; cbn [String.append]; [reflexivity | now f_equal].
Qed.

Lemma string_app_nil_r (a : string) : a +:+ "" = a.
Proof.
  induction a as [|x a IH]; cbn [String.append]; [reflexivity | now f_equal].
Qed.

Lemma emits_ret {A} (a : A) : emits (ret a) "".
Proof. intros b. exists a. unfold ret. now rewrite string_app_nil_r. Qed.

Lemma emits_WriteString (s : string) : emits (WriteString s) s.
Proof. intros b. eexists. reflexivity. Qed.

Lemma emits_bind {A B} (c : M Builder A) (k : A -> M Builder B) t1 t2 :
  emits c t1 -> (forall a, emits (k a) t2) -> emits (bind c k) (t1 +:+ t2).
Proof.
  intros Hc Hk b. destruct (Hc b) as [a Ha].
  destruct (Hk a (b +:+ t1)) as [r Hr].
  exists r. unfold bind. now rewrite Ha, Hr, string_app_assoc.
Qed.

Lemma emits_text {A} (c : M Builder A) t t' : emits c t -> t = t' -> emits c t'.
Proof. now intros H <-. Qed.

Lemma emits_unit (c : M Builder unit) t b : emits c t -> c b = (Ok tt, b +:+ t).
Proof. intros H. destruct (H b) as [[] Hb]. exact Hb. Qed.

Lemma emits_forRange {A} (xs : list A) (body : A -> M Builder unit)
    (line : A -> string) :
  (forall x, emits (body x) (line x)) ->
  emits (forRange xs body) (concat_strings (map line xs)).
Proof.
  intros Hbody. induction xs as [|x xs IH]; simpl.
  - apply emits_ret.
  - apply emits_bind; [apply Hbody | intros _; exact IH].
Qed.

Ltac emits_step :=
  first [ apply emits_WriteString
        | apply emits_ret
        | eapply emits_bind; [| intros ?] ].

Ltac norm_strings :=
  cbn [Sprintf go String.append concat_strings map];
  rewrite ?string_app_assoc, ?string_app_nil_r;
  cbn [String.append].

(** ** The value stringifier *)

Lemma array_loop_emits (n i : Z) (xs : list string) :
  i + len xs = n ->
  0 <= i ->
  emits
    (forRangeFrom i xs (fun i s =>
       let formatString := if Z.eqb i (n - 1) then "%v, " else "%v" in
       _ <- WriteString (Sprintf formatString [s]) ;;
       ret tt))
    (concat_strings xs +:+ match xs with [] => "" | _ :: _ => ", " end).
Proof.
  revert i. induction xs as [|x xs IH]; intros i Hn Hi.
  - apply emits_ret.
  - cbn [forRangeFrom]. unfold len in Hn. cbn [length] in Hn.
    destruct xs as [|y ys].
    + replace (i =? n - 1)%Z with true by (symmetry; apply Z.eqb_eq; cbn in Hn; lia).
      eapply emits_text.
      * repeat emits_step.
      * norm_strings. reflexivity.
    + replace (i =? n - 1)%Z with false
        by (symmetry; apply Z.eqb_neq; cbn [length] in Hn; lia).
      eapply emits_text.
      * eapply emits_bind; [repeat emits_step | intros _].
        apply (IH (i + 1)); [unfold len; cbn [length] in *; lia | lia].
      * norm_strings. reflexivity.
Qed.

Lemma stringifyParam_array_emits (param : ParamValue) :
  emits (FileBased.stringifyParam_array param) (bracketed (ArrayVal param)).
Proof.
  unfold FileBased.stringifyParam_array, bracketed, forRangeIndexed.
  eapply emits_text.
  - eapply emits_bind; [apply emits_WriteString | intros _].
    eapply emits_bind; [apply array_loop_emits; [reflexivity | lia] | intros _].
    repeat emits_step.
  - norm_strings. reflexivity.
Qed.

Lemma stringifyParam_array_type (param : ParamValue) :
  Type_ param = "array" ->
  FileBased.stringifyParam (Some param) = ("", None).
Proof.
  intros Ht. unfold FileBased.stringifyParam. rewrite Ht. cbn [String.eqb].
  change ("array" =? "string")%string with false.
  change ("array" =? "array")%string with true. cbv iota.
  now rewrite (emits_unit _ _ "" (stringifyParam_array_emits param)).
Qed.

Lemma stringifyParam_no_error (param : ParamValue) :
  (FileBased.stringifyParam (Some param)).2 = None.
Proof.
  unfold FileBased.stringifyParam.
  destruct (String.eqb (Type_ param) "string"); [reflexivity|].
  destruct (String.eqb (Type_ param) "array").
  - now rewrite (emits_unit _ _ "" (stringifyParam_array_emits param)).
  - now destruct (String.eqb (Type_ param) "object").
Qed.

(** ** The renderer, section by section *)

Lemma generateHeader_emits (taskBundle : FileBased.TaskBundle) :
  emits (FileBased.generateHeader taskBundle)
        ("# `" +:+ Name (FileBased.task taskBundle) +:+ go "`\n\n").
Proof.
  unfold FileBased.generateHeader. eapply emits_text.
  - repeat emits_step.
  - norm_strings. reflexivity.
Qed.

Lemma generateDescription_emits (taskBundle : FileBased.TaskBundle) :
  emits (FileBased.generateDescription taskBundle)
        (Description (Spec (FileBased.task taskBundle)) +:+ go "\n\n").
Proof.
  unfold FileBased.generateDescription. eapply emits_text.
  - repeat emits_step.
  - norm_strings. reflexivity.
Qed.

Lemma generateInputs_emits (taskBundle : FileBased.TaskBundle) :
  emits (FileBased.generateInputs taskBundle)
        (go "## Parameters\n"
           +:+ concat_strings
                 (map param_line (Params (Spec (FileBased.task taskBundle))))
           +:+ go "\n").
Proof.
  unfold FileBased.generateInputs. eapply emits_text.
  - eapply emits_bind; [apply emits_WriteString | intros _].
    eapply emits_bind; [| intros _; repeat emits_step].
    apply (emits_forRange _ _ param_line). intros param.
    unfold param_line. destruct (Default param) as [value|].
    + pose proof (stringifyParam_no_error value) as Hno.
      destruct (FileBased.stringifyParam (Some value)) as [paramString err].
      cbn [snd] in Hno. subst err. cbn [fst]. eapply emits_text.
      * repeat emits_step.
      * norm_strings. reflexivity.
    + eapply emits_text.
      * repeat emits_step.
      * norm_strings. reflexivity.
  - norm_strings. reflexivity.
Qed.

Lemma generateWorkspaces_emits (taskBundle : FileBased.TaskBundle) :
  emits (FileBased.generateWorkspaces taskBundle)
        (go "## Workspaces\n"
           +:+ concat_strings
                 (map workspace_line
                      (Workspaces (Spec (FileBased.task taskBundle))))
           +:+ go "\n").
Proof.
  unfold FileBased.generateWorkspaces. eapply emits_text.
  - eapply emits_bind; [apply emits_WriteString | intros _].
    eapply emits_bind; [| intros _; repeat emits_step].
    apply (emits_forRange _ _ workspace_line). intros workspace.
    unfold workspace_line. eapply emits_text.
    + repeat emits_step.
    + destruct (Optional workspace); norm_strings; reflexivity.
  - norm_strings. reflexivity.
Qed.

Lemma generateResults_emits (taskBundle : FileBased.TaskBundle) :
  emits (FileBased.generateResults taskBundle)
        (go "## Results\n"
           +:+ concat_strings
                 (map result_line (Results (Spec (FileBased.task taskBundle))))).
Proof.
  unfold FileBased.generateResults. eapply emits_text.
  - eapply emits_bind; [apply emits_WriteString | intros _].
    apply (emits_forRange _ _ result_line). intros result.
    unfold result_line. eapply emits_text.
    + repeat emits_step.
    + norm_strings. reflexivity.
  - norm_strings. reflexivity.
Qed.

Lemma generateDocument_emits (taskBundle : FileBased.TaskBundle) :
  emits (FileBased.generateDocument taskBundle)
    (("# `" +:+ Name (FileBased.task taskBundle) +:+ go "`\n\n")
     +:+ (Description (Spec (FileBased.task taskBundle)) +:+ go "\n\n")
     +:+ (go "## Parameters\n"
            +:+ concat_strings
                  (map param_line (Params (Spec (FileBased.task taskBundle))))
            +:+ go "\n")
     +:+ (go "## Workspaces\n"
            +:+ concat_strings
                  (map workspace_line
                       (Workspaces (Spec (FileBased.task taskBundle))))
            +:+ go "\n")
     +:+ (go "## Results\n"
            +:+ concat_strings
                  (map result_line
                       (Results (Spec (FileBased.task taskBundle)))))).
Proof.
  unfold FileBased.generateDocument.
  eapply emits_bind; [apply generateHeader_emits | intros _].
  eapply emits_bind; [apply generateDescription_emits | intros _].
  eapply emits_bind; [apply generateInputs_emits | intros _].
  eapply emits_bind; [apply generateWorkspaces_emits | intros _].
  apply generateResults_emits.
Qed.

Lemma bullet_param_line (param : ParamSpec) : bullet (param_line param).
Proof.
  unfold bullet, param_line. destruct (Default param) as [value|].
  - exists (param_Name param +:+ "**: " +:+ param_Description param
              +:+ " `(Default: " +:+ (FileBased.stringifyParam (Some value)).1
              +:+ ")`").
    now rewrite !string_app_assoc.
  - exists (param_Name param +:+ "**: " +:+ param_Description param).
    now rewrite !string_app_assoc.
Qed.

Lemma bullet_workspace_line (workspace : WorkspaceDeclaration) :
  bullet (workspace_line workspace).
Proof.
  unfold bullet, workspace_line.
  exists (workspace_Name workspace
            +:+ (if Optional workspace then "** (optional): " else "**: ")
            +:+ workspace_Description workspace).
  now rewrite !string_app_assoc.
Qed.

Lemma bullet_result_line (result : TaskResult) : bullet (result_line result).
Proof.
  unfold bullet, result_line.
  exists (result_Name result +:+ "**: " +:+ result_Description result).
  now rewrite !string_app_assoc.
Qed.

(** ** The claims *)

(** C1. For every task bundle the rendered document is exactly five
    sections in the fixed order Header, Description, Parameters,
    Workspaces, Results: each of the three lists contributes its heading
    followed by one bullet per element, so an empty list leaves the
    heading with no bullet; rendering never fails.  The second part spells
    the document out for a task whose three lists are all empty. *)
Theorem C1_five_sections_in_order :
  (forall taskBundle : FileBased.TaskBundle,
     exists parameters workspaces results : list string,
       length parameters
         = length (Params (Spec (FileBased.task taskBundle))) /\
       length workspaces
         = length (Workspaces (Spec (FileBased.task taskBundle))) /\
       length results
         = length (Results (Spec (FileBased.task taskBundle))) /\
       Forall bullet (parameters ++ workspaces ++ results) /\
       FileBased.generateDocument taskBundle ""
       = (Ok tt,
          ("# `" +:+ Name (FileBased.task taskBundle) +:+ go "`\n\n")
          +:+ (Description (Spec (FileBased.task taskBundle)) +:+ go "\n\n")
          +:+ (go "## Parameters\n" +:+ concat_strings parameters +:+ go "\n")
          +:+ (go "## Workspaces\n" +:+ concat_strings workspaces +:+ go "\n")
          +:+ (go "## Results\n" +:+ concat_strings results))) /\
  (forall path name description : string,
     FileBased.generateDocument
       (FileBased.mkTaskBundle path
          (mkTask name (mkTaskSpec description [] [] []))) ""
     = (Ok tt,
        "# `" +:+ name +:+ go "`\n\n" +:+ description
          +:+ go "\n\n## Parameters\n\n## Workspaces\n\n## Results\n")).
Proof.
  split.
  - intros taskBundle.
    exists (map param_line (Params (Spec (FileBased.task taskBundle)))),
           (map workspace_line (Workspaces (Spec (FileBased.task taskBundle)))),
           (map result_line (Results (Spec (FileBased.task taskBundle)))).
    rewrite !length_map. repeat split.
    + rewrite !Forall_app. repeat split; apply Forall_forall;
        intros line Hin; apply list_elem_of_fmap in Hin as (x & -> & _).
      * apply bullet_param_line.
      * apply bullet_workspace_line.
      * apply bullet_result_line.
    + apply (emits_unit _ _ "" (generateDocument_emits taskBundle)).
  - intros path name description.
    rewrite (emits_unit _ _ "" (generateDocument_emits _)).
    cbn [FileBased.task Name Spec Description Params Workspaces Results
         map concat_strings].
    norm_strings. reflexivity.
Qed.

(** C2. What the code does with an [Array] default, in both programs:
    the local builder of the array branch receives the bracketed
    rendering (the items one after the other, [", "] after the last one
    only, a closing bracket), but [stringifyParam] leaves the switch
    without returning it and yields the empty string. *)
Theorem C2_array_default_returns_empty (items : list string) :
  FileBased.stringifyParam_array (Array items) "" = (Ok tt, bracketed items) /\
  ResourceSet.stringifyParam_array (Array items) "" = (Ok tt, bracketed items) /\
  FileBased.stringifyParam (Some (Array items)) = ("", None) /\
  ResourceSet.stringifyParam (Some (Array items)) = ("", None).
Proof.
  pose proof (emits_unit _ _ "" (stringifyParam_array_emits (Array items))) as H.
  cbn [ArrayVal Array String.append] in H.
  pose proof (stringifyParam_array_type (Array items) eq_refl) as H'.
  repeat split; first [exact H | exact H'].
Qed.

(** C3. The Parameters section is its heading, one line per parameter in
    source order and a blank line.  The line of a parameter without a
    default is [* **name**: description] and nothing more; the line of a
    parameter whose default is a string value [x] carries the suffix
    [`(Default: x)`] on the same line. *)
Theorem C3_parameter_lines (taskBundle : FileBased.TaskBundle) :
  exists lines : list string,
    FileBased.generateInputs taskBundle ""
    = (Ok tt, go "## Parameters\n" +:+ concat_strings lines +:+ go "\n") /\
    Forall2
      (fun param line =>
         (Default param = None ->
          line = "* **" +:+ param_Name param +:+ "**: "
                   +:+ param_Description param +:+ go "\n") /\
         (forall value,
            Default param = Some value -> Type_ value = "string" ->
            line = "* **" +:+ param_Name param +:+ "**: "
                     +:+ param_Description param
                     +:+ " `(Default: " +:+ StringVal value +:+ ")`"
                     +:+ go "\n"))
      (Params (Spec (FileBased.task taskBundle))) lines.
Proof.
  exists (map param_line (Params (Spec (FileBased.task taskBundle)))). split.
  - apply (emits_unit _ _ "" (generateInputs_emits taskBundle)).
  - apply Forall2_fmap_r, Forall_Forall2_diag, Forall_forall.
    intros param _. unfold param_line. split.
    + now intros ->.
    + intros value -> Htype. unfold FileBased.stringifyParam.
      now rewrite Htype.
Qed.

(** C4. The Workspaces section is its heading, one line per workspace in
    source order and a blank line.  An optional workspace is rendered as
    [* **name** (optional): description], any other workspace as
    [* **name**: description]. *)
Theorem C4_workspace_lines (taskBundle : FileBased.TaskBundle) :
  FileBased.generateWorkspaces taskBundle ""
  = (Ok tt,
     go "## Workspaces\n"
       +:+ concat_strings
             (map (fun workspace =>
                     if Optional workspace
                     then "* **" +:+ workspace_Name workspace
                            +:+ "** (optional): "
                            +:+ workspace_Description workspace +:+ go "\n"
                     else "* **" +:+ workspace_Name workspace +:+ "**: "
                            +:+ workspace_Description workspace +:+ go "\n")
                  (Workspaces (Spec (FileBased.task taskBundle))))
       +:+ go "\n").
Proof.
  rewrite (emits_unit _ _ "" (generateWorkspaces_emits taskBundle)).
  erewrite (map_ext workspace_line); [reflexivity|].
  intros workspace. unfold workspace_line.
  destruct (Optional workspace); norm_strings; reflexivity.
Qed.

(** C5. An object default is always rendered as the two bytes [{}],
    whatever its mapping holds, in both programs. *)
Theorem C5_object_default (value : ParamValue) :
  Type_ value = "object" ->
  FileBased.stringifyParam (Some value) = ("{}", None) /\
  ResourceSet.stringifyParam (Some value) = ("{}", None).
Proof.
  intros Htype.
  assert (FileBased.stringifyParam (Some value) = ("{}", None)) as H
    by (unfold FileBased.stringifyParam; now rewrite Htype).
  split; exact H.
Qed.

Lemma C5_object_default_witness :
  FileBased.stringifyParam (Some (Object {["a" := "b"]})) = ("{}", None) /\
  ResourceSet.stringifyParam (Some (Object {["a" := "b"]})) = ("{}", None).
Proof. apply (C5_object_default (Object {["a" := "b"]})). reflexivity. Defined.

(** C9. The two programs render the same text: each rendering function
    of the file-based program, applied to a bundle, is the function of
    the same name of the resource-set program applied to the bundle's
    task, and so is the whole document. *)
Theorem C9_same_rendering (path : string) (task : Task) :
  (forall param,
     FileBased.stringifyParam param = ResourceSet.stringifyParam param) /\
  FileBased.generateHeader (FileBased.mkTaskBundle path task)
  = ResourceSet.generateHeader task /\
  FileBased.generateDescription (FileBased.mkTaskBundle path task)
  = ResourceSet.generateDescription task /\
  FileBased.generateInputs (FileBased.mkTaskBundle path task)
  = ResourceSet.generateInputs task /\
  FileBased.generateWorkspaces (FileBased.mkTaskBundle path task)
  = ResourceSet.generateWorkspaces task /\
  FileBased.generateResults (FileBased.mkTaskBundle path task)
  = ResourceSet.generateResults task /\
  (forall stringBuilder,
     FileBased.generateDocument (FileBased.mkTaskBundle path task) stringBuilder
     = ResourceSet.generateDocument task stringBuilder).
Proof. repeat split. Qed.

(** C10. [stringifyParam] reports an error for the nil pointer and for
    nothing else, and [generateInputs] passes it a default only where
    the default is not nil: for every task the Parameters section is
    rendered without an error. *)
Theorem C10_nil_param_error_unreachable :
  FileBased.stringifyParam None
  = ("", Some (Errorf "cannot stringify nil param value")) /\
  (forall value, (FileBased.stringifyParam (Some value)).2 = None) /\
  (forall taskBundle stringBuilder,
     exists written,
       FileBased.generateInputs taskBundle stringBuilder = (Ok tt, written)).
Proof.
  split; [reflexivity|]. split; [apply stringifyParam_no_error|].
  intros taskBundle stringBuilder. eexists.
  apply (emits_unit _ _ stringBuilder (generateInputs_emits taskBundle)).
Qed.

Lemma C3_parameter_lines_witness :
  exists lines : list string,
    FileBased.generateInputs tag_bundle ""
    = (Ok tt, go "## Parameters\n" +:+ concat_strings lines +:+ go "\n") /\
    lines = [go "* **image**: The image.\n";
             go "* **tag**: The tag. `(Default: latest)`\n"].
Proof.
  destruct (C3_parameter_lines tag_bundle) as (lines & Heq & Hall).
  exists lines. split; [exact Heq|].
  cbn [tag_bundle FileBased.task Spec Params] in Hall.
  inversion Hall as [|p1 l1 ps1 ls1 [H1 _] Hrest]; subst.
  inversion Hrest as [|p2 l2 ps2 ls2 [_ H2] Hnil]; subst.
  inversion Hnil; subst.
  rewrite (H1 eq_refl), (H2 _ eq_refl eq_refl). reflexivity.
Defined.

(** ** The resource-set builder *)

Section ResourceScan.

Variable Resource : Type.
Variable GetKind : Resource -> string.
Variable MarshalJSON : Resource -> result string.
Variable json_Unmarshal : string -> result Task.

Lemma scan_from_stops (before : list Resource) :
  forall (tasks decoded : list Task) (res : Resource) (after : list Resource),
    Forall2 (fun r task =>
               GetKind r = "Task" /\
               ResourceSet.ResourceToType Resource MarshalJSON json_Unmarshal r
               = Ok task) before decoded ->
    GetKind res <> "Task" ->
    ResourceSet.GetAllTasksFromResourceMap_from
      Resource GetKind MarshalJSON json_Unmarshal tasks
      (before ++ res :: after)%list
    = ((tasks ++ decoded)%list, None).
Proof.
  induction before as [|r before IH]; intros tasks decoded res after Hall Hres.
  - inversion Hall; subst. cbn. apply String.eqb_neq in Hres.
    rewrite Hres. cbn. now rewrite app_nil_r.
  - inversion Hall as [|? task ? decoded' [Hkind Hdec] Hall']; subst.
    cbn. rewrite Hkind. cbn. rewrite Hdec.
    rewrite (IH _ _ _ _ Hall' Hres).
    now rewrite <- app_assoc.
Qed.

(** A resource of kind "Task" that does not decode ends the scan too:
    the tasks appended so far come back together with the error. *)
Lemma scan_from_decode_error (before : list Resource) :
  forall (tasks decoded : list Task) (res : Resource) (after : list Resource)
         (err : error),
    Forall2 (fun r task =>
               GetKind r = "Task" /\
               ResourceSet.ResourceToType Resource MarshalJSON json_Unmarshal r
               = Ok task) before decoded ->
    GetKind res = "Task" ->
    ResourceSet.ResourceToType Resource MarshalJSON json_Unmarshal res
    = Err err ->
    ResourceSet.GetAllTasksFromResourceMap_from
      Resource GetKind MarshalJSON json_Unmarshal tasks
      (before ++ res :: after)%list
    = ((tasks ++ decoded)%list, Some err).
Proof.
  induction before as [|r before IH];
    intros tasks decoded res after err Hall Hkind Herr.
  - inversion Hall; subst. cbn. rewrite Hkind. cbn. rewrite Herr.
    now rewrite app_nil_r.
  - inversion Hall as [|? task ? decoded' [Hk Hdec] Hall']; subst.
    cbn. rewrite Hk. cbn. rewrite Hdec.
    rewrite (IH _ _ _ _ _ Hall' Hkind Herr).
    now rewrite <- app_assoc.
Qed.

(** C6. Let the resources before some resource [res] all be of kind
    "Task" and decode to [tasks], and let the kind of [res] be anything
    but "Task".  Then the scan returns exactly [tasks] and no error,
    whatever follows [res]: the scan ends there, it does not skip [res]
    and go on. *)
Theorem C6_scan_stops_at_first_non_task
    (before : list Resource) (tasks : list Task)
    (res : Resource) (after : list Resource) :
  Forall2 (fun r task =>
             GetKind r = "Task" /\
             ResourceSet.ResourceToType Resource MarshalJSON json_Unmarshal r
             = Ok task) before tasks ->
  GetKind res <> "Task" ->
  ResourceSet.GetAllTasksFromResourceMap
    Resource GetKind MarshalJSON json_Unmarshal (before ++ res :: after)%list
  = (tasks, None).
Proof.
  intros Hall Hres. unfold ResourceSet.GetAllTasksFromResourceMap.
  exact (scan_from_stops before [] tasks res after Hall Hres).
Qed.

End ResourceScan.

Lemma C6_scan_stops_at_first_non_task_witness :
  ResourceSet.GetAllTasksFromResourceMap
    (string * string) fst (fun r => Ok r.2) toy_Unmarshal toy_resources
  = ([mkTask "build" (mkTaskSpec "" [] [] [])], None).
Proof.
  apply (C6_scan_stops_at_first_non_task
           (string * string) fst (fun r => Ok r.2) toy_Unmarshal
           [("Task", "name: build")] [mkTask "build" (mkTaskSpec "" [] [] [])]
           ("Pipeline", "name: ci") [("Task", "name: test")]).
  - constructor; [split; reflexivity | constructor].
  - discriminate.
Defined.

(** ** The manifest loader *)

Section LoadAll.

Variable yaml_Unmarshal : string -> result Task.
Variable fs : FS.

Lemma LoadAllTasks_from_step (tasks : list FileBased.TaskBundle)
    (path : string) (paths : list string) :
  FileBased.LoadAllTasks_from yaml_Unmarshal tasks (path :: paths) fs
  = match loads yaml_Unmarshal fs path with
    | Ok task =>
        FileBased.LoadAllTasks_from yaml_Unmarshal
          (tasks ++ [FileBased.mkTaskBundle path task]) paths fs
    | Err err => ([], Some err)
    end.
Proof.
  cbn [FileBased.LoadAllTasks_from]. unfold loads.
  destruct (ReadFile path fs) as [[bytes|err] fs0]; [|reflexivity].
  now destruct (yaml_Unmarshal bytes).
Qed.

Lemma LoadAllTasks_from_all (paths : list string) :
  forall (bundles : list FileBased.TaskBundle) (tasks : list Task),
    Forall2 (fun path task => loads yaml_Unmarshal fs path = Ok task)
            paths tasks ->
    FileBased.LoadAllTasks_from yaml_Unmarshal bundles paths fs
    = ((bundles ++ zip_with FileBased.mkTaskBundle paths tasks)%list, None).
Proof.
  induction paths as [|path paths IH]; intros bundles tasks Hall.
  - inversion Hall; subst. cbn. now rewrite app_nil_r.
  - inversion Hall as [|? task ? tasks' Hpath Hall']; subst.
    rewrite LoadAllTasks_from_step, Hpath, (IH _ _ Hall').
    cbn [zip_with]. now rewrite <- app_assoc.
Qed.

Lemma LoadAllTasks_from_first_failure (before : list string) :
  forall (bundles : list FileBased.TaskBundle) (path : string)
         (after : list string) (err : error),
    Forall (fun p => exists task, loads yaml_Unmarshal fs p = Ok task) before ->
    loads yaml_Unmarshal fs path = Err err ->
    FileBased.LoadAllTasks_from yaml_Unmarshal bundles
      (before ++ path :: after)%list fs
    = ([], Some err).
Proof.
  induction before as [|p before IH]; intros bundles path after err Hall Hfail.
  - cbn [app]. now rewrite LoadAllTasks_from_step, Hfail.
  - inversion Hall as [|? ? [task Hp] Hall']; subst.
    cbn [app]. rewrite LoadAllTasks_from_step, Hp. now apply IH.
Qed.

Lemma LoadAllTasks_from_some_failure (paths : list string) :
  forall bundles : list FileBased.TaskBundle,
    Exists (fun p => exists err, loads yaml_Unmarshal fs p = Err err) paths ->
    exists err,
      FileBased.LoadAllTasks_from yaml_Unmarshal bundles paths fs
      = ([], Some err).
Proof.
  induction paths as [|path paths IH]; intros bundles Hex.
  - inversion Hex.
  - rewrite LoadAllTasks_from_step.
    destruct (loads yaml_Unmarshal fs path) as [task|err] eqn:Hpath.
    + apply IH. inversion Hex as [? ? [err Herr]|]; subst; [congruence | assumption].
    + now exists err.
Qed.

(** C7. If every path is read and decoded, [LoadAllTasks] returns one
    bundle per path, in the order of the paths, each decoded task with
    the path it came from.  If a path fails to be read or decoded after
    all the paths before it loaded, the load returns that error and the
    nil slice; and whenever some path fails, the load returns an error
    and the nil slice, never a partial list. *)
Theorem C7_load_all_or_nothing (paths : list string) :
  (forall tasks : list Task,
     Forall2 (fun path task => loads yaml_Unmarshal fs path = Ok task)
             paths tasks ->
     FileBased.LoadAllTasks yaml_Unmarshal paths fs
     = (zip_with FileBased.mkTaskBundle paths tasks, None)) /\
  (forall (before : list string) (path : string) (after : list string)
          (err : error),
     paths = (before ++ path :: after)%list ->
     Forall (fun p => exists task, loads yaml_Unmarshal fs p = Ok task)
            before ->
     loads yaml_Unmarshal fs path = Err err ->
     FileBased.LoadAllTasks yaml_Unmarshal paths fs = ([], Some err)) /\
  (Exists (fun p => exists err, loads yaml_Unmarshal fs p = Err err) paths ->
   exists err,
     FileBased.LoadAllTasks yaml_Unmarshal paths fs = ([], Some err)).
Proof.
  unfold FileBased.LoadAllTasks. split; [|split].
  - intros tasks Hall. now rewrite (LoadAllTasks_from_all paths [] tasks Hall).
  - intros before path after err -> Hall Hfail.
    now apply LoadAllTasks_from_first_failure.
  - apply LoadAllTasks_from_some_failure.
Qed.

End LoadAll.

Lemma C7_load_all_or_nothing_witness :
  FileBased.LoadAllTasks toy_Unmarshal ["build.yaml"; "test.yaml"] toy_fs
  = ([FileBased.mkTaskBundle "build.yaml"
        (mkTask "build" (mkTaskSpec "" [] [] []));
      FileBased.mkTaskBundle "test.yaml"
        (mkTask "test" (mkTaskSpec "" [] [] []))], None) /\
  FileBased.LoadAllTasks toy_Unmarshal
    ["build.yaml"; "broken.yaml"; "test.yaml"] toy_fs
  = ([], Some (DecodeError "no name")) /\
  FileBased.LoadAllTasks toy_Unmarshal
    ["build.yaml"; "missing.yaml"; "test.yaml"] toy_fs
  = ([], Some (PathError "open" "missing.yaml")).
Proof.
  split; [|split].
  - apply (proj1 (C7_load_all_or_nothing toy_Unmarshal toy_fs
                    ["build.yaml"; "test.yaml"])
             [mkTask "build" (mkTaskSpec "" [] [] []);
              mkTask "test" (mkTaskSpec "" [] [] [])]).
    repeat constructor.
  - apply (proj1 (proj2 (C7_load_all_or_nothing toy_Unmarshal toy_fs
                           ["build.yaml"; "broken.yaml"; "test.yaml"]))
             ["build.yaml"] "broken.yaml" ["test.yaml"]).
    + reflexivity.
    + repeat constructor. now eexists.
    + reflexivity.
  - apply (proj1 (proj2 (C7_load_all_or_nothing toy_Unmarshal toy_fs
                           ["build.yaml"; "missing.yaml"; "test.yaml"]))
             ["build.yaml"] "missing.yaml" ["test.yaml"]).
    + reflexivity.
    + repeat constructor. now eexists.
    + reflexivity.
Defined.

(** ** The output writer *)

Lemma Sprintf_task_dir (name : string) :
  Sprintf "taskmd.out/%v" [name] = "taskmd.out/" +:+ name.
Proof. norm_strings. reflexivity. Qed.

Lemma Sprintf_readme (name : string) :
  Sprintf "taskmd.out/%v/README.md" [name]
  = "taskmd.out/" +:+ name +:+ "/README.md".
Proof. norm_strings. reflexivity. Qed.

Lemma Sprintf_copy (name base : string) :
  Sprintf "taskmd.out/%v/%v" [name; base]
  = "taskmd.out/" +:+ name +:+ "/" +:+ base.
Proof. norm_strings. reflexivity. Qed.

Lemma bind_Ok_inv {S A B} (c : M S A) (k : A -> M S B) s b s' :
  bind c k s = (Ok b, s') ->
  exists a s1, c s = (Ok a, s1) /\ k a s1 = (Ok b, s').
Proof.
  unfold bind. destruct (c s) as [[a|e] s1]; [|discriminate].
  intros H. now exists a, s1.
Qed.

Lemma MkdirAll_Ok_inv path (fs fs1 : FS) a :
  MkdirAll path fs = (Ok a, fs1) -> fs1 = fs.
Proof. unfold MkdirAll. destruct (fs !! path); now intros [= ]. Qed.

Lemma Create_Ok_inv name (fs fs1 : FS) f :
  Create name fs = (Ok f, fs1) -> f = name /\ fs1 = <[name := ""]> fs.
Proof. unfold Create. now intros [= <- <-]. Qed.

Lemma File_Write_Ok_inv f bytes (fs fs1 : FS) n :
  File_Write f bytes fs = (Ok n, fs1) ->
  fs1 = <[f := default "" (fs !! f) +:+ bytes]> fs.
Proof. unfold File_Write. now intros [= _ <-]. Qed.

Lemma Stat_Ok_inv name (fs fs1 : FS) info :
  Stat name fs = (Ok info, fs1) ->
  fi_name info = basename name /\ fs1 = fs /\ is_Some (fs !! name).
Proof.
  unfold Stat. destruct (fs !! name) eqn:H; [|discriminate].
  intros [= <- <-]. eauto.
Qed.

Lemma ReadFile_Ok_inv name (fs fs1 : FS) bytes :
  ReadFile name fs = (Ok bytes, fs1) -> fs1 = fs /\ fs !! name = Some bytes.
Proof.
  unfold ReadFile. destruct (fs !! name) eqn:H; [|discriminate].
  now intros [= <- <-].
Qed.

(** C8. When [writeGenerateMarkdown] returns without an error, the file
    it leaves in the task's output subdirectory under the base name of
    the source path holds exactly the bytes of the file at the source
    path.  The source file is the one the call found: it is untouched by
    the call, unless the source path is the very README the call writes
    first. *)
Theorem C8_manifest_copy_identical
    (taskBundle : FileBased.TaskBundle) (stringBuilder : Builder)
    (fs fs' : FS) :
  FileBased.writeGenerateMarkdown taskBundle stringBuilder fs = (Ok tt, fs') ->
  exists bytes : string,
    fs' !! ("taskmd.out/" +:+ Name (FileBased.task taskBundle) +:+ "/"
              +:+ basename (FileBased.path taskBundle)) = Some bytes /\
    fs' !! FileBased.path taskBundle = Some bytes /\
    (FileBased.path taskBundle
       <> "taskmd.out/" +:+ Name (FileBased.task taskBundle) +:+ "/README.md" ->
     fs !! FileBased.path taskBundle = Some bytes).
Proof.
  unfold FileBased.writeGenerateMarkdown.
  rewrite Sprintf_task_dir, Sprintf_readme.
  set (name := Name (FileBased.task taskBundle)).
  set (source := FileBased.path taskBundle).
  set (readme := "taskmd.out/" +:+ name +:+ "/README.md").
  intros H.
  apply bind_Ok_inv in H as (? & fs0 & ->%MkdirAll_Ok_inv & H).
  apply bind_Ok_inv in H as (readmeFile & fs1 & [-> ->]%Create_Ok_inv & H).
  apply bind_Ok_inv in H as (? & fs2 & Hfs2%File_Write_Ok_inv & H).
  apply bind_Ok_inv in H as (stat & ? & (Hstat & -> & _)%Stat_Ok_inv & H).
  apply bind_Ok_inv in H as (bytes & ? & [-> Hsource]%ReadFile_Ok_inv & H).
  rewrite Hstat, Sprintf_copy in H.
  set (copy := "taskmd.out/" +:+ name +:+ "/" +:+ basename source) in *.
  apply bind_Ok_inv in H as (taskFile & fs3 & [-> ->]%Create_Ok_inv & H).
  apply bind_Ok_inv in H as (? & fs4 & ->%File_Write_Ok_inv & H).
  injection H as <-. exists bytes.
  rewrite (lookup_insert_eq fs2 copy ""). cbn [default String.append].
  split; [apply lookup_insert_eq|]. split.
  - destruct (decide (copy = source)) as [Heq|Hne].
    + rewrite <- Heq. apply lookup_insert_eq.
    + now rewrite !lookup_insert_ne.
  - intros Hreadme. rewrite Hfs2 in Hsource.
    now rewrite !lookup_insert_ne in Hsource.
Qed.

Lemma C8_manifest_copy_identical_witness :
  (FileBased.writeGenerateMarkdown build_bundle "# `build`" toy_fs).2
    !! "taskmd.out/build/build.yaml"
  = Some "name: build".
Proof.
  destruct (C8_manifest_copy_identical build_bundle "# `build`" toy_fs
              (FileBased.writeGenerateMarkdown build_bundle "# `build`" toy_fs).2)
    as (bytes & Hcopy & _ & Hsource).
  - vm_compute. reflexivity.
  - assert (Some "name: build" = Some bytes) as Heq
      by (apply Hsource; discriminate).
    injection Heq as <-. exact Hcopy.
Defined.

(** ** The examples of the spec, run on the model *)

Example spec_example_document :
  FileBased.generateDocument spec_example_bundle ""
  = (Ok tt,
     go "# `build`\n\nBuilds the app.\n\n## Parameters\n* **image**: \n\n## Workspaces\n* **source** (optional): \n\n## Results\n* **digest**: \n").
Proof. reflexivity. Qed.

Example stringify_hello :
  FileBased.stringifyParam (Some (String_ "hello")) = ("hello", None).
Proof. reflexivity. Qed.

Example stringify_array_a_b :
  FileBased.stringifyParam_array (Array ["a"; "b"]) "" = (Ok tt, "[ab, ]") /\
  FileBased.stringifyParam (Some (Array ["a"; "b"])) = ("", None).
Proof. split; reflexivity. Qed.

Example array_default_line :
  FileBased.generateInputs build_bundle ""
  = (Ok tt,
     go "## Parameters\n* **image**: \n* **tag**: The tag. `(Default: latest)`\n* **args**: Extra flags. `(Default: )`\n\n").
Proof. reflexivity. Qed.

Example run_build :
  let fs' := (FileBased.run toy_Unmarshal ["build.yaml"] toy_fs).2 in
  (FileBased.run toy_Unmarshal ["build.yaml"] toy_fs).1 = Ok tt /\
  fs' !! "taskmd.out/build/README.md"
  = Some (go "# `build`\n\n\n\n## Parameters\n\n## Workspaces\n\n## Results\n") /\
  fs' !! "taskmd.out/build/build.yaml" = Some "name: build" /\
  fs' !! "build.yaml" = Some "name: build".
Proof. vm_compute. repeat split. Qed.

Example scan_never_reaches_later_tasks :
  ResourceSet.GetAllTasksFromResourceMap
    (string * string) fst (fun r => Ok r.2) toy_Unmarshal
    [("Pipeline", "name: ci"); ("Task", "name: test")]
  = ([], None).
Proof. reflexivity. Qed.

(** A source path that is the README of the task's own output directory:
    the call overwrites the source before it reads it, and the copy,
    which lands on the same path, holds the rendered text. *)
Example readme_as_source :
  let source := "taskmd.out/build/README.md" in
  let fs : FS := {[source := "name: build"]} in
  let fs' :=
    (FileBased.writeGenerateMarkdown
       (FileBased.mkTaskBundle source build_task) "# `build`" fs).2 in
  (FileBased.writeGenerateMarkdown
     (FileBased.mkTaskBundle source build_task) "# `build`" fs).1 = Ok tt /\
  fs' !! ("taskmd.out/build/" +:+ basename source) = Some "# `build`" /\
  fs' !! source = Some "# `build`".
Proof. vm_compute. repeat split. Qed.

(** ** Further properties of the renderer *)

(** X1. The Results section is its heading followed by one line
    [* **name**: description] per result, in source order, appended to
    what the builder holds; no blank line follows the last section. *)
Theorem X1_result_lines (taskBundle : FileBased.TaskBundle)
    (stringBuilder : Builder) :
  FileBased.generateResults taskBundle stringBuilder
  = (Ok tt,
     stringBuilder
       +:+ go "## Results\n"
       +:+ concat_strings
             (map (fun result =>
                     "* **" +:+ result_Name result +:+ "**: "
                       +:+ result_Description result +:+ go "\n")
                  (Results (Spec (FileBased.task taskBundle))))).
Proof.
  destruct (generateResults_emits taskBundle stringBuilder) as [[] Hrun].
  rewrite Hrun. reflexivity.
Qed.

(** X2. A parameter with a default always gets the suffix
    [`(Default: ...)`]: an object default shows as [{}]; a default that
    is neither a string nor an object (an array, or any other type tag)
    shows as nothing at all, [`(Default: )`]. *)
Theorem X2_default_suffix (taskBundle : FileBased.TaskBundle) :
  exists lines : list string,
    FileBased.generateInputs taskBundle ""
    = (Ok tt, go "## Parameters\n" +:+ concat_strings lines +:+ go "\n") /\
    Forall2
      (fun param line =>
         forall value, Default param = Some value ->
           (Type_ value = "object" ->
            line = "* **" +:+ param_Name param +:+ "**: "
                     +:+ param_Description param
                     +:+ go " `(Default: {})`\n") /\
           (Type_ value <> "string" -> Type_ value <> "object" ->
            line = "* **" +:+ param_Name param +:+ "**: "
                     +:+ param_Description param
                     +:+ go " `(Default: )`\n"))
      (Params (Spec (FileBased.task taskBundle))) lines.
Proof.
  exists (map param_line (Params (Spec (FileBased.task taskBundle)))). split.
  - apply (emits_unit _ _ "" (generateInputs_emits taskBundle)).
  - apply Forall2_fmap_r, Forall_Forall2_diag, Forall_forall.
    intros param _ value Hdefault. unfold param_line. rewrite Hdefault. split.
    + intros Htype. unfold FileBased.stringifyParam. now rewrite Htype.
    + intros Hstring Hobject.
      apply String.eqb_neq in Hstring. apply String.eqb_neq in Hobject.
      pose proof (emits_unit _ _ "" (stringifyParam_array_emits value)) as Harr.
      unfold FileBased.stringifyParam. rewrite Hstring, Hobject, Harr.
      now destruct (String.eqb (Type_ value) "array").
Qed.

Lemma X2_default_suffix_witness :
  exists lines : list string,
    FileBased.generateInputs defaults_bundle ""
    = (Ok tt, go "## Parameters\n" +:+ concat_strings lines +:+ go "\n") /\
    lines = [go "* **env**: Environment. `(Default: {})`\n";
             go "* **args**: Flags. `(Default: )`\n";
             go "* **odd**: Odd. `(Default: )`\n"].
Proof.
  destruct (X2_default_suffix defaults_bundle) as (lines & Heq & Hall).
  exists lines. split; [exact Heq|].
  cbn [defaults_bundle FileBased.task Spec Params] in Hall.
  inversion Hall as [|p1 l1 ps1 ls1 H1 Hrest1]; subst.
  inversion Hrest1 as [|p2 l2 ps2 ls2 H2 Hrest2]; subst.
  inversion Hrest2 as [|p3 l3 ps3 ls3 H3 Hnil]; subst.
  inversion Hnil; subst.
  rewrite (proj1 (H1 _ eq_refl) eq_refl).
  rewrite (proj2 (H2 _ eq_refl)) by discriminate.
  rewrite (proj2 (H3 _ eq_refl)) by discriminate.
  reflexivity.
Defined.

(** X3. The resource-set program renders the same five sections: from
    any builder, [generateDocument] returns without an error after
    appending header, description, and the three headed lists with one
    bullet per parameter, workspace and result. *)
Theorem X3_resource_set_document (task : Task) (stringBuilder : Builder) :
  exists parameters workspaces results : list string,
    length parameters = length (Params (Spec task)) /\
    length workspaces = length (Workspaces (Spec task)) /\
    length results = length (Results (Spec task)) /\
    Forall bullet (parameters ++ workspaces ++ results) /\
    ResourceSet.generateDocument task stringBuilder
    = (Ok tt,
       stringBuilder
       +:+ ("# `" +:+ Name task +:+ go "`\n\n")
       +:+ (Description (Spec task) +:+ go "\n\n")
       +:+ (go "## Parameters\n" +:+ concat_strings parameters +:+ go "\n")
       +:+ (go "## Workspaces\n" +:+ concat_strings workspaces +:+ go "\n")
       +:+ (go "## Results\n" +:+ concat_strings results)).
Proof.
  exists (map param_line (Params (Spec task))),
         (map workspace_line (Workspaces (Spec task))),
         (map result_line (Results (Spec task))).
  rewrite !length_map. repeat split.
  - rewrite !Forall_app. repeat split; apply Forall_forall;
      intros line Hin; apply list_elem_of_fmap in Hin as (x & -> & _).
    + apply bullet_param_line.
    + apply bullet_workspace_line.
    + apply bullet_result_line.
  - change (ResourceSet.generateDocument task)
      with (FileBased.generateDocument (FileBased.mkTaskBundle "" task)).
    apply (emits_unit _ _ stringBuilder
             (generateDocument_emits (FileBased.mkTaskBundle "" task))).
Qed.

(** ** Further properties of the output writer *)

Lemma create_then_write (name s : string) (fs : FS) :
  File_Write name s (<[name := ""]> fs)
  = (Ok (Z.of_nat (String.length s)), <[name := s]> fs).
Proof.
  unfold File_Write. rewrite lookup_insert_eq. cbn [default String.append].
  now rewrite insert_insert_eq.
Qed.

Lemma MkdirAll_eq (path : string) (fs : FS) :
  MkdirAll path fs
  = match fs !! path with
    | Some _ => (Err (PathError "mkdir" path), fs)
    | None => (Ok tt, fs)
    end.
Proof. reflexivity. Qed.

Lemma Create_eq (name : string) (fs : FS) :
  Create name fs = (Ok name, <[name := ""]> fs).
Proof. reflexivity. Qed.

Lemma Stat_eq (name : string) (fs : FS) :
  Stat name fs
  = match fs !! name with
    | Some _ => (Ok (mkFileInfo (basename name)), fs)
    | None => (Err (PathError "stat" name), fs)
    end.
Proof. reflexivity. Qed.

Lemma ReadFile_eq (name : string) (fs : FS) :
  ReadFile name fs
  = match fs !! name with
    | Some bytes => (Ok bytes, fs)
    | None => (Err (PathError "open" name), fs)
    end.
Proof. reflexivity. Qed.

Lemma bind_eq {S A B} (c : M S A) (k : A -> M S B) (s : S) :
  bind c k s
  = match c s with
    | (Ok a, s') => k a s'
    | (Err e, s') => (Err e, s')
    end.
Proof. reflexivity. Qed.

(** [writeGenerateMarkdown] in closed form. *)
Lemma writeGenerateMarkdown_closed (taskBundle : FileBased.TaskBundle)
    (stringBuilder : Builder) (fs : FS) :
  FileBased.writeGenerateMarkdown taskBundle stringBuilder fs
  = match fs !! ("taskmd.out/" +:+ Name (FileBased.task taskBundle)) with
    | Some _ =>
        (Err (PathError "mkdir"
                ("taskmd.out/" +:+ Name (FileBased.task taskBundle))), fs)
    | None =>
        match <[readme_path taskBundle := stringBuilder]> fs
              !! FileBased.path taskBundle with
        | None =>
            (Err (PathError "stat" (FileBased.path taskBundle)),
             <[readme_path taskBundle := stringBuilder]> fs)
        | Some bytes =>
            (Ok tt,
             <[copy_path taskBundle := bytes]>
               (<[readme_path taskBundle := stringBuilder]> fs))
        end
    end.
Proof.
  unfold FileBased.writeGenerateMarkdown, readme_path, copy_path.
  unfold Builder in *.
  rewrite Sprintf_task_dir, Sprintf_readme.
  rewrite bind_eq, MkdirAll_eq.
  destruct (fs !! ("taskmd.out/" +:+ Name (FileBased.task taskBundle)));
    [reflexivity|].
  rewrite bind_eq, Create_eq, bind_eq.
  unfold File_WriteString. rewrite create_then_write.
  rewrite bind_eq, Stat_eq.
  destruct (<[_ := stringBuilder]> fs !! FileBased.path taskBundle)
    as [bytes|] eqn:Hsource; [|reflexivity].
  rewrite bind_eq, ReadFile_eq, Hsource.
  cbn [fi_name]. rewrite Sprintf_copy.
  rewrite bind_eq, Create_eq, bind_eq, create_then_write. reflexivity.
Qed.

Lemma copy_path_is_readme (taskBundle : FileBased.TaskBundle) :
  copy_path taskBundle = readme_path taskBundle <->
  basename (FileBased.path taskBundle) = "README.md".
Proof.
  unfold copy_path, readme_path. split.
  - intros H. do 2 apply String.app_inj in H.
    change "/README.md" with ("/" +:+ "README.md") in H.
    now apply String.app_inj in H.
  - now intros ->.
Qed.

(** X4. When [writeGenerateMarkdown] returns without an error and the
    source file is not itself called [README.md], the task's README
    holds exactly the text of the builder. *)
Theorem X4_readme_holds_document (taskBundle : FileBased.TaskBundle)
    (stringBuilder : Builder) (fs fs' : FS) :
  FileBased.writeGenerateMarkdown taskBundle stringBuilder fs = (Ok tt, fs') ->
  basename (FileBased.path taskBundle) <> "README.md" ->
  fs' !! ("taskmd.out/" +:+ Name (FileBased.task taskBundle) +:+ "/README.md")
  = Some stringBuilder.
Proof.
  rewrite writeGenerateMarkdown_closed. intros H Hbase.
  destruct (fs !! _); [discriminate|].
  destruct (<[_ := _]> fs !! _) as [bytes|]; [|discriminate].
  injection H as <-.
  rewrite lookup_insert_ne by (now rewrite copy_path_is_readme).
  apply lookup_insert_eq.
Qed.

Lemma X4_readme_holds_document_witness :
  (FileBased.writeGenerateMarkdown build_bundle "# `build`" toy_fs).2
    !! "taskmd.out/build/README.md"
  = Some "# `build`".
Proof.
  apply (X4_readme_holds_document build_bundle "# `build`" toy_fs).
  - vm_compute. reflexivity.
  - discriminate.
Defined.

(** X5. When the source file is called [README.md] (and is not the
    task's own README), the manifest copy lands on the README: after a
    call without an error the task's README holds the bytes of the
    source file, and the rendered text is gone. *)
Theorem X5_readme_named_source (taskBundle : FileBased.TaskBundle)
    (stringBuilder : Builder) (fs fs' : FS) :
  FileBased.writeGenerateMarkdown taskBundle stringBuilder fs = (Ok tt, fs') ->
  basename (FileBased.path taskBundle) = "README.md" ->
  FileBased.path taskBundle
    <> "taskmd.out/" +:+ Name (FileBased.task taskBundle) +:+ "/README.md" ->
  is_Some (fs !! FileBased.path taskBundle) /\
  fs' !! ("taskmd.out/" +:+ Name (FileBased.task taskBundle) +:+ "/README.md")
  = fs !! FileBased.path taskBundle.
Proof.
  rewrite writeGenerateMarkdown_closed. intros H Hbase Hsource.
  destruct (fs !! ("taskmd.out/" +:+ _)); [discriminate|].
  rewrite lookup_insert_ne in H by (intros Heq; now apply Hsource).
  destruct (fs !! FileBased.path taskBundle) as [bytes|]; [|discriminate].
  injection H as <-. split; [eauto|].
  apply copy_path_is_readme in Hbase. rewrite Hbase.
  apply lookup_insert_eq.
Qed.

Lemma X5_readme_named_source_witness :
  (FileBased.writeGenerateMarkdown readme_named_bundle "# `build`"
     readme_named_fs).2 !! "taskmd.out/build/README.md"
  = Some "name: build".
Proof.
  destruct (X5_readme_named_source readme_named_bundle "# `build`"
              readme_named_fs
              (FileBased.writeGenerateMarkdown readme_named_bundle "# `build`"
                 readme_named_fs).2) as [_ H].
  - vm_compute. reflexivity.
  - reflexivity.
  - discriminate.
  - exact H.
Defined.

(** X6. Whatever its outcome, [writeGenerateMarkdown] changes no file
    other than the task's README and the manifest copy. *)
Theorem X6_writer_touches_two_files (taskBundle : FileBased.TaskBundle)
    (stringBuilder : Builder) (fs fs' : FS) (r : result unit) (p : string) :
  FileBased.writeGenerateMarkdown taskBundle stringBuilder fs = (r, fs') ->
  p <> "taskmd.out/" +:+ Name (FileBased.task taskBundle) +:+ "/README.md" ->
  p <> "taskmd.out/" +:+ Name (FileBased.task taskBundle) +:+ "/"
         +:+ basename (FileBased.path taskBundle) ->
  fs' !! p = fs !! p.
Proof.
  rewrite writeGenerateMarkdown_closed. intros H Hreadme Hcopy.
  destruct (fs !! ("taskmd.out/" +:+ _)); [now injection H as _ <-|].
  destruct (<[_ := _]> fs !! _) as [bytes|]; injection H as _ <-.
  - rewrite lookup_insert_ne by (intros Heq; now apply Hcopy).
    now rewrite lookup_insert_ne by (intros Heq; now apply Hreadme).
  - now rewrite lookup_insert_ne by (intros Heq; now apply Hreadme).
Qed.

Lemma X6_writer_touches_two_files_witness :
  (FileBased.writeGenerateMarkdown build_bundle "# `build`" toy_fs).2
    !! "test.yaml"
  = Some "name: test".
Proof.
  rewrite (X6_writer_touches_two_files build_bundle "# `build`" toy_fs
             (FileBased.writeGenerateMarkdown build_bundle "# `build`" toy_fs).2
             (Ok tt) "test.yaml").
  - reflexivity.
  - vm_compute. reflexivity.
  - discriminate.
  - discriminate.
Defined.

(** X7. Output is not rolled back: when the source file is missing (and
    no file is in the way of the task's directory), the call returns the
    error of [os.Stat] after it has written the README, which stays. *)
Theorem X7_missing_source_leaves_readme (taskBundle : FileBased.TaskBundle)
    (stringBuilder : Builder) (fs : FS) :
  fs !! ("taskmd.out/" +:+ Name (FileBased.task taskBundle)) = None ->
  fs !! FileBased.path taskBundle = None ->
  FileBased.path taskBundle
    <> "taskmd.out/" +:+ Name (FileBased.task taskBundle) +:+ "/README.md" ->
  FileBased.writeGenerateMarkdown taskBundle stringBuilder fs
  = (Err (PathError "stat" (FileBased.path taskBundle)),
     <["taskmd.out/" +:+ Name (FileBased.task taskBundle) +:+ "/README.md"
       := stringBuilder]> fs).
Proof.
  intros Hdir Hsource Hne. rewrite writeGenerateMarkdown_closed, Hdir.
  rewrite lookup_insert_ne by (intros Heq; now apply Hne).
  now rewrite Hsource.
Qed.

Lemma X7_missing_source_leaves_readme_witness :
  FileBased.writeGenerateMarkdown
    (FileBased.mkTaskBundle "missing.yaml" build_task) "# `build`" toy_fs
  = (Err (PathError "stat" "missing.yaml"),
     <["taskmd.out/build/README.md" := "# `build`"]> toy_fs).
Proof.
  apply (X7_missing_source_leaves_readme
           (FileBased.mkTaskBundle "missing.yaml" build_task)).
  - reflexivity.
  - reflexivity.
  - discriminate.
Defined.

(** ** The loop over the tasks *)

Lemma forRange_invariant {S A} (P : S -> Prop) (xs : list A)
    (body : A -> M S unit) :
  (forall x s r s', x ∈ xs -> P s -> body x s = (r, s') -> P s') ->
  forall s r s', P s -> forRange xs body s = (r, s') -> P s'.
Proof.
  induction xs as [|x xs IH]; intros Hbody s r s' HP Hrun.
  - cbn in Hrun. injection Hrun as _ <-. exact HP.
  - cbn [forRange] in Hrun. rewrite bind_eq in Hrun.
    destruct (body x s) as [[[]|e] s1] eqn:Hx.
    + apply (IH (fun y t r' t' Hy => Hbody y t r' t' (list_elem_of_further _ _ _ Hy))
               s1 r s'); [|exact Hrun].
      apply (Hbody x s _ s1 (list_elem_of_here _ _) HP Hx).
    + injection Hrun as _ <-.
      apply (Hbody x s _ s1 (list_elem_of_here _ _) HP Hx).
Qed.

Lemma forRange_app {S A} (xs ys : list A) (body : A -> M S unit) (s : S) :
  forRange (xs ++ ys) body s
  = match forRange xs body s with
    | (Ok _, s') => forRange ys body s'
    | (Err e, s') => (Err e, s')
    end.
Proof.
  revert s. induction xs as [|x xs IH]; intros s; [reflexivity|].
  cbn [app forRange]. rewrite !bind_eq.
  destruct (body x s) as [[[]|e] s1]; [apply IH | reflexivity].
Qed.

Lemma forRange_ext {S A} (xs : list A) (body body' : A -> M S unit) (s : S) :
  (forall x t, body x t = body' x t) ->
  forRange xs body s = forRange xs body' s.
Proof.
  intros Hext. revert s. induction xs as [|x xs IH]; intros s; [reflexivity|].
  cbn [forRange]. rewrite !bind_eq, Hext.
  destruct (body' x s) as [[[]|e] s1]; [apply IH | reflexivity].
Qed.



Lemma RemoveAll_eq (dir : string) (fs : FS) :
  RemoveAll dir fs = (Ok tt, filter (fun kv => under dir kv.1 = false) fs).
Proof. reflexivity. Qed.

Lemma lookup_removed (dir p : string) (fs : FS) :
  filter (fun kv : string * string => under dir kv.1 = false) fs !! p
  = if under dir p then None else fs !! p.
Proof.
  rewrite map_lookup_filter. destruct (fs !! p) as [bytes|]; cbn.
  - destruct (under dir p) eqn:Hu.
    + rewrite option_guard_False; [reflexivity | cbn; congruence].
    + rewrite option_guard_True; [reflexivity | reflexivity].
  - now destruct (under dir p).
Qed.

Lemma document_rendered (taskBundle : FileBased.TaskBundle) :
  FileBased.generateDocument taskBundle "" = (Ok tt, document taskBundle).
Proof.
  unfold document.
  now rewrite (emits_unit _ _ "" (generateDocument_emits taskBundle)).
Qed.

(** [GenerateMarkdownToDirectory] in closed form: the writes of the
    tasks, one after the other, on the file system without the old
    output directory. *)
Lemma GenerateMarkdownToDirectory_closed (tasks : list FileBased.TaskBundle)
    (fs : FS) :
  FileBased.GenerateMarkdownToDirectory tasks fs
  = forRange tasks
      (fun taskBundle =>
         FileBased.writeGenerateMarkdown taskBundle (document taskBundle))
      (filter (fun kv : string * string => under "taskmd.out" kv.1 = false) fs).
Proof.
  unfold FileBased.GenerateMarkdownToDirectory.
  rewrite bind_eq, RemoveAll_eq, bind_eq, MkdirAll_eq, lookup_removed.
  change (under "taskmd.out" "taskmd.out") with true. cbv iota.
  apply forRange_ext. intros taskBundle t.
  now rewrite document_rendered.
Qed.




(** X9. The output directory is rebuilt from nothing: whatever the
    outcome, every file found under [taskmd.out] afterwards is the README
    or the manifest copy of one of the given bundles; nothing of an
    earlier run is left. *)
Theorem X9_output_rebuilt (tasks : list FileBased.TaskBundle)
    (fs fs' : FS) (r : result unit) (p : string) :
  FileBased.GenerateMarkdownToDirectory tasks fs = (r, fs') ->
  under "taskmd.out" p = true ->
  is_Some (fs' !! p) ->
  exists taskBundle,
    taskBundle ∈ tasks /\
    (p = "taskmd.out/" +:+ Name (FileBased.task taskBundle) +:+ "/README.md" \/
     p = "taskmd.out/" +:+ Name (FileBased.task taskBundle) +:+ "/"
           +:+ basename (FileBased.path taskBundle)).
Proof.
  rewrite GenerateMarkdownToDirectory_closed. intros Hrun Hp.
  refine (forRange_invariant
            (fun s : FS =>
               is_Some (s !! p) ->
               exists taskBundle, taskBundle ∈ tasks /\
                 (p = readme_path taskBundle \/ p = copy_path taskBundle))
            tasks _ _ _ r fs' _ Hrun).
  - intros taskBundle s r' s' Hin Hs Hwrite Hsome.
    destruct (decide (p = readme_path taskBundle)) as [Hreadme|Hreadme];
      [now eauto|].
    destruct (decide (p = copy_path taskBundle)) as [Hcopy|Hcopy];
      [now eauto|].
    apply Hs. rewrite writeGenerateMarkdown_closed in Hwrite.
    destruct (s !! ("taskmd.out/" +:+ _)); [now injection Hwrite as _ <-|].
    destruct (<[_ := _]> s !! _) as [bytes|]; injection Hwrite as _ <-.
    + now rewrite !lookup_insert_ne in Hsome.
    + now rewrite lookup_insert_ne in Hsome.
  - rewrite lookup_removed, Hp. now intros [? ?].
Qed.

Lemma X9_output_rebuilt_witness :
  exists taskBundle,
    taskBundle ∈ [build_bundle] /\
    ("taskmd.out/build/README.md"
     = "taskmd.out/" +:+ Name (FileBased.task taskBundle) +:+ "/README.md" \/
     "taskmd.out/build/README.md"
     = "taskmd.out/" +:+ Name (FileBased.task taskBundle) +:+ "/"
         +:+ basename (FileBased.path taskBundle)).
Proof.
  apply (X9_output_rebuilt [build_bundle] stale_fs
           (FileBased.GenerateMarkdownToDirectory [build_bundle] stale_fs).2
           (Ok tt)).
  - vm_compute. reflexivity.
  - reflexivity.
  - vm_compute. eauto.
Defined.

(** X10. The output of the last bundle is never overwritten: when
    [GenerateMarkdownToDirectory] returns without an error, the manifest
    copy of the last bundle holds the bytes of its source file, and,
    unless that file is called [README.md], its README holds the rendered
    document. *)
Theorem X10_last_bundle_output (tasks : list FileBased.TaskBundle)
    (taskBundle : FileBased.TaskBundle) (fs fs' : FS) :
  FileBased.GenerateMarkdownToDirectory (tasks ++ [taskBundle]) fs
  = (Ok tt, fs') ->
  (exists bytes,
     fs' !! FileBased.path taskBundle = Some bytes /\
     fs' !! ("taskmd.out/" +:+ Name (FileBased.task taskBundle) +:+ "/"
               +:+ basename (FileBased.path taskBundle)) = Some bytes) /\
  (basename (FileBased.path taskBundle) <> "README.md" ->
   exists text,
     FileBased.generateDocument taskBundle "" = (Ok tt, text) /\
     fs' !! ("taskmd.out/" +:+ Name (FileBased.task taskBundle)
               +:+ "/README.md") = Some text).
Proof.
  rewrite GenerateMarkdownToDirectory_closed, forRange_app.
  destruct (forRange tasks _ _) as [[[]|e] s]; [|discriminate].
  cbn [forRange]. rewrite bind_eq, writeGenerateMarkdown_closed.
  destruct (s !! ("taskmd.out/" +:+ _)); [discriminate|].
  destruct (<[_ := _]> s !! FileBased.path taskBundle) as [bytes|] eqn:Hsource;
    [|discriminate].
  intros [= <-]. split.
  - exists bytes. split; [|apply lookup_insert_eq].
    destruct (decide (copy_path taskBundle = FileBased.path taskBundle))
      as [Heq|Hne].
    + rewrite <- Heq. apply lookup_insert_eq.
    + now rewrite lookup_insert_ne.
  - intros Hbase. exists (document taskBundle).
    split; [apply document_rendered|].
    rewrite lookup_insert_ne by (now rewrite copy_path_is_readme).
    apply lookup_insert_eq.
Qed.

Lemma X10_last_bundle_output_witness :
  (exists bytes,
     (FileBased.GenerateMarkdownToDirectory [test_bundle; build_bundle]
        toy_fs).2 !! "build.yaml" = Some bytes /\
     (FileBased.GenerateMarkdownToDirectory [test_bundle; build_bundle]
        toy_fs).2 !! "taskmd.out/build/build.yaml" = Some bytes) /\
  (exists text,
     FileBased.generateDocument build_bundle "" = (Ok tt, text) /\
     (FileBased.GenerateMarkdownToDirectory [test_bundle; build_bundle]
        toy_fs).2 !! "taskmd.out/build/README.md" = Some text).
Proof.
  destruct (X10_last_bundle_output [test_bundle] build_bundle toy_fs
              (FileBased.GenerateMarkdownToDirectory
                 [test_bundle; build_bundle] toy_fs).2) as [Hcopy Hreadme].
  - vm_compute. reflexivity.
  - split; [exact Hcopy | apply Hreadme; discriminate].
Defined.

(** ** The writer of the resource-set program *)




Lemma task_document_rendered (task : Task) :
  ResourceSet.generateDocument task "" = (Ok tt, task_document task).
Proof.
  unfold task_document.
  change (ResourceSet.generateDocument task)
    with (FileBased.generateDocument (FileBased.mkTaskBundle "" task)).
  now rewrite (emits_unit _ _ "" (generateDocument_emits _)).
Qed.

Lemma ResourceSet_write_closed (task : Task) (stringBuilder : Builder)
    (fs : FS) :
  ResourceSet.writeGenerateMarkdown task stringBuilder fs
  = (Ok tt, <[md_path task := stringBuilder]> fs).
Proof.
  unfold ResourceSet.writeGenerateMarkdown, md_path. unfold Builder in *.
  assert (Sprintf "taskmd.out/%v.md" [Name task]
          = "taskmd.out/" +:+ Name task +:+ ".md") as ->
    by (norm_strings; reflexivity).
  rewrite bind_eq, Create_eq, bind_eq.
  unfold File_WriteString. now rewrite create_then_write.
Qed.

(** [GenerateMarkdownToDirectory] of the resource-set program in closed
    form, when no file called [taskmd.out] is in the way. *)
Lemma ResourceSet_generate_closed (tasks : list Task) (fs : FS) :
  fs !! "taskmd.out" = None ->
  ResourceSet.GenerateMarkdownToDirectory tasks fs
  = forRange tasks
      (fun task fs => (Ok tt, <[md_path task := task_document task]> fs)) fs.
Proof.
  intros Hdir. unfold ResourceSet.GenerateMarkdownToDirectory.
  rewrite bind_eq, MkdirAll_eq, Hdir.
  apply forRange_ext. intros task t.
  now rewrite task_document_rendered, ResourceSet_write_closed.
Qed.

Lemma ResourceSet_generate_blocked (tasks : list Task) (fs : FS) :
  is_Some (fs !! "taskmd.out") ->
  ResourceSet.GenerateMarkdownToDirectory tasks fs
  = (Err (PathError "mkdir" "taskmd.out"), fs).
Proof.
  intros [bytes Hdir]. unfold ResourceSet.GenerateMarkdownToDirectory.
  now rewrite bind_eq, MkdirAll_eq, Hdir.
Qed.

(** X11. The resource-set program cleans nothing: whatever its outcome,
    [GenerateMarkdownToDirectory] leaves every file as it found it,
    except the files [taskmd.out/<name>.md] of the given tasks; documents
    of earlier runs stay. *)
Theorem X11_resource_set_keeps_files (tasks : list Task) (fs fs' : FS)
    (r : result unit) (p : string) :
  ResourceSet.GenerateMarkdownToDirectory tasks fs = (r, fs') ->
  (forall task, task ∈ tasks -> p <> "taskmd.out/" +:+ Name task +:+ ".md") ->
  fs' !! p = fs !! p.
Proof.
  intros Hrun Hp. destruct (fs !! "taskmd.out") as [bytes|] eqn:Hdir.
  - rewrite ResourceSet_generate_blocked in Hrun by eauto.
    now injection Hrun as _ <-.
  - rewrite (ResourceSet_generate_closed tasks fs Hdir) in Hrun.
    refine (forRange_invariant (fun s : FS => s !! p = fs !! p) tasks _ _ _
              r fs' _ Hrun); [|reflexivity].
    intros task s r' s' Hin Hs [= _ <-].
    rewrite lookup_insert_ne; [exact Hs|].
    intros Heq. now apply (Hp task Hin).
Qed.

Lemma X11_resource_set_keeps_files_witness :
  (ResourceSet.GenerateMarkdownToDirectory [first_build; test_task] docs_fs).2
    !! "taskmd.out/old.md"
  = Some "# `old`".
Proof.
  rewrite (X11_resource_set_keeps_files [first_build; test_task] docs_fs
             (ResourceSet.GenerateMarkdownToDirectory
                [first_build; test_task] docs_fs).2
             (Ok tt) "taskmd.out/old.md").
  - reflexivity.
  - vm_compute. reflexivity.
  - intros task Hin.
    apply elem_of_cons in Hin as [->|Hin]; [discriminate|].
    apply elem_of_cons in Hin as [->|Hin]; [discriminate|].
    now apply not_elem_of_nil in Hin.
Defined.



(** ** The file-based program as a whole *)

Section FileBasedProgram.

Variable yaml_Unmarshal : string -> result Task.
Variable Error : error -> string.

Lemma loads_Ok (fs : FS) (path : string) (task : Task) :
  loads yaml_Unmarshal fs path = Ok task <->
  exists bytes, fs !! path = Some bytes /\ yaml_Unmarshal bytes = Ok task.
Proof.
  unfold loads. rewrite ReadFile_eq.
  destruct (fs !! path) as [bytes|]; split.
  - intros H. now exists bytes.
  - now intros (? & [= <-] & H).
  - discriminate.
  - now intros (? & [=] & _).
Qed.



Lemma LoadAllTasks_from_inv (fs : FS) (paths : list string) :
  forall bundles loaded : list FileBased.TaskBundle,
    FileBased.LoadAllTasks_from yaml_Unmarshal bundles paths fs
    = (loaded, None) ->
    exists new,
      loaded = (bundles ++ new)%list /\
      map FileBased.path new = paths /\
      Forall (fun taskBundle =>
                loads yaml_Unmarshal fs (FileBased.path taskBundle)
                = Ok (FileBased.task taskBundle)) new.
Proof.
  induction paths as [|path paths IH]; intros bundles loaded Hrun.
  - cbn in Hrun. injection Hrun as <-. exists []. now rewrite app_nil_r.
  - rewrite LoadAllTasks_from_step in Hrun.
    destruct (loads yaml_Unmarshal fs path) as [task|err] eqn:Hpath;
      [|discriminate].
    destruct (IH _ _ Hrun) as (new & -> & Hpaths & Hall).
    exists (FileBased.mkTaskBundle path task :: new).
    rewrite <- app_assoc. repeat split.
    + cbn. now rewrite Hpaths.
    + constructor; [exact Hpath | exact Hall].
Qed.

(** X13. What [LoadAllTasks] returns without an error is faithful to the
    paths: the bundles carry the given paths, in order, and each task is
    what its own path reads and decodes to. *)
Theorem X13_loaded_bundles_faithful (paths : list string) (fs : FS)
    (bundles : list FileBased.TaskBundle) :
  FileBased.LoadAllTasks yaml_Unmarshal paths fs = (bundles, None) ->
  map FileBased.path bundles = paths /\
  Forall (fun taskBundle =>
            exists bytes,
              fs !! FileBased.path taskBundle = Some bytes /\
              yaml_Unmarshal bytes = Ok (FileBased.task taskBundle)) bundles.
Proof.
  unfold FileBased.LoadAllTasks. intros Hrun.
  destruct (LoadAllTasks_from_inv fs paths [] bundles Hrun)
    as (new & -> & Hpaths & Hall).
  cbn [app]. split; [exact Hpaths|].
  eapply Forall_impl; [exact Hall|].
  intros taskBundle Hload. now apply loads_Ok.
Qed.

(** X14. [main] ends through [log.Fatal] with the file system exactly
    as it found it, the old output directory included, when no path is
    given (the usage message) and when some path cannot be read or
    decoded (the message of an error). *)
Theorem X14_fatal_before_any_write (args : list string) (fs : FS) :
  (len args <= 1 ->
   FileBased.main yaml_Unmarshal Error args fs
   = (Fatal "usage: taskmd [task-files]", fs)) /\
  (Exists (fun p => exists err, loads yaml_Unmarshal fs p = Err err)
          (drop 1 args) ->
   exists err,
     FileBased.main yaml_Unmarshal Error args fs = (Fatal (Error err), fs)).
Proof.
  unfold FileBased.main. split.
  - intros Hlen. apply Z.leb_le in Hlen. now rewrite Hlen.
  - intros Hex.
    assert (Z.leb (len args) 1 = false) as ->.
    { apply Z.leb_gt. unfold len.
      destruct args as [|prog [|path args]]; cbn [drop] in Hex;
        [inversion Hex | inversion Hex | cbn [length]; lia]. }
    destruct (LoadAllTasks_from_some_failure yaml_Unmarshal fs _ [] Hex)
      as [err Herr].
    exists err. unfold FileBased.run, FileBased.LoadAllTasks.
    now rewrite Herr.
Qed.



End FileBasedProgram.

Lemma X13_loaded_bundles_faithful_witness :
  map FileBased.path
    (FileBased.LoadAllTasks toy_Unmarshal ["build.yaml"; "test.yaml"] toy_fs).1
  = ["build.yaml"; "test.yaml"].
Proof.
  apply (X13_loaded_bundles_faithful toy_Unmarshal
           ["build.yaml"; "test.yaml"] toy_fs).
  vm_compute. reflexivity.
Defined.

Lemma X14_fatal_before_any_write_witness :
  FileBased.main toy_Unmarshal toy_Error ["taskmd"] stale_fs
  = (Fatal "usage: taskmd [task-files]", stale_fs) /\
  exists err,
    FileBased.main toy_Unmarshal toy_Error
      ["taskmd"; "build.yaml"; "broken.yaml"] toy_fs
    = (Fatal (toy_Error err), toy_fs).
Proof.
  split.
  - apply (proj1 (X14_fatal_before_any_write toy_Unmarshal toy_Error
                    ["taskmd"] stale_fs)).
    unfold len. cbn [length]. lia.
  - apply (proj2 (X14_fatal_before_any_write toy_Unmarshal toy_Error
                    ["taskmd"; "build.yaml"; "broken.yaml"] toy_fs)).
    apply Exists_cons_tl, Exists_cons_hd. now eexists.
Defined.



(** ** The resource-set program as a whole *)

Section ResourceSetProgram.

Variable Resource : Type.
Variable GetKind : Resource -> string.
Variable MarshalJSON : Resource -> result string.
Variable json_Unmarshal : string -> result Task.
Variable krusty_Run : FS -> string -> result (list Resource).
Variable Error : error -> string.

Lemma scan_from_step (tasks : list Task) (res : Resource)
    (resources : list Resource) :
  ResourceSet.GetAllTasksFromResourceMap_from
    Resource GetKind MarshalJSON json_Unmarshal tasks (res :: resources)
  = if negb (String.eqb (GetKind res) "Task") then (tasks, None)
    else
      match ResourceSet.ResourceToType Resource MarshalJSON json_Unmarshal res
      with
      | Err err => (tasks, Some err)
      | Ok task =>
          ResourceSet.GetAllTasksFromResourceMap_from
            Resource GetKind MarshalJSON json_Unmarshal
            (tasks ++ [task]) resources
      end.
Proof. reflexivity. Qed.

Lemma scan_from_truncates (before : list Resource) :
  forall (tasks : list Task) (res : Resource) (after : list Resource),
    Forall (fun r => GetKind r = "Task") before ->
    GetKind res <> "Task" ->
    ResourceSet.GetAllTasksFromResourceMap_from
      Resource GetKind MarshalJSON json_Unmarshal tasks
      (before ++ res :: after)%list
    = ResourceSet.GetAllTasksFromResourceMap_from
        Resource GetKind MarshalJSON json_Unmarshal tasks before.
Proof.
  induction before as [|r before IH]; intros tasks res after Hall Hres.
  - cbn [app]. rewrite scan_from_step. apply String.eqb_neq in Hres.
    now rewrite Hres.
  - inversion Hall as [|? ? Hkind Hall']; subst.
    cbn [app]. rewrite !scan_from_step, Hkind.
    change (String.eqb "Task" "Task") with true. cbn [negb].
    destruct (ResourceSet.ResourceToType _ _ _ r); [now apply IH | reflexivity].
Qed.

Lemma scan_from_all (resources : list Resource) :
  forall tasks decoded : list Task,
    Forall2 (fun r task =>
               GetKind r = "Task" /\
               ResourceSet.ResourceToType Resource MarshalJSON json_Unmarshal r
               = Ok task) resources decoded ->
    ResourceSet.GetAllTasksFromResourceMap_from
      Resource GetKind MarshalJSON json_Unmarshal tasks resources
    = ((tasks ++ decoded)%list, None).
Proof.
  induction resources as [|r resources IH]; intros tasks decoded Hall.
  - inversion Hall; subst. cbn. now rewrite app_nil_r.
  - inversion Hall as [|? task ? decoded' [Hkind Hdec] Hall']; subst.
    rewrite scan_from_step, Hkind.
    change (String.eqb "Task" "Task") with true. cbn [negb].
    rewrite Hdec, (IH _ _ Hall'). now rewrite <- app_assoc.
Qed.

(** X17. The scan sees nothing from the first resource whose kind is not
    "Task" onwards: the result, tasks and error alike, is the result of
    scanning the resources before it, whether they decode or not. *)
Theorem X17_scan_ignores_the_rest
    (before : list Resource) (res : Resource) (after : list Resource) :
  Forall (fun r => GetKind r = "Task") before ->
  GetKind res <> "Task" ->
  ResourceSet.GetAllTasksFromResourceMap
    Resource GetKind MarshalJSON json_Unmarshal (before ++ res :: after)%list
  = ResourceSet.GetAllTasksFromResourceMap
      Resource GetKind MarshalJSON json_Unmarshal before.
Proof.
  intros Hall Hres. unfold ResourceSet.GetAllTasksFromResourceMap.
  now apply scan_from_truncates.
Qed.

(** X18. When every resource is of kind "Task" and decodes, the scan
    returns all the decoded tasks, in the order of the resources, and no
    error. *)
Theorem X18_scan_all_tasks (resources : list Resource) (tasks : list Task) :
  Forall2 (fun r task =>
             GetKind r = "Task" /\
             ResourceSet.ResourceToType Resource MarshalJSON json_Unmarshal r
             = Ok task) resources tasks ->
  ResourceSet.GetAllTasksFromResourceMap
    Resource GetKind MarshalJSON json_Unmarshal resources
  = (tasks, None).
Proof.
  intros Hall. unfold ResourceSet.GetAllTasksFromResourceMap.
  now rewrite (scan_from_all resources [] tasks Hall).
Qed.

(** X19. A resource of kind "Task" that does not decode ends the scan
    with its error, and, unlike the loader of the file-based program,
    the scan returns the tasks decoded before it next to the error. *)
Theorem X19_scan_decode_error
    (before : list Resource) (tasks : list Task)
    (res : Resource) (after : list Resource) (err : error) :
  Forall2 (fun r task =>
             GetKind r = "Task" /\
             ResourceSet.ResourceToType Resource MarshalJSON json_Unmarshal r
             = Ok task) before tasks ->
  GetKind res = "Task" ->
  ResourceSet.ResourceToType Resource MarshalJSON json_Unmarshal res
  = Err err ->
  ResourceSet.GetAllTasksFromResourceMap
    Resource GetKind MarshalJSON json_Unmarshal (before ++ res :: after)%list
  = (tasks, Some err).
Proof.
  intros Hall Hkind Herr. unfold ResourceSet.GetAllTasksFromResourceMap.
  exact (scan_from_decode_error Resource GetKind MarshalJSON json_Unmarshal
           before [] tasks res after err Hall Hkind Herr).
Qed.

(** X20. [main] of the resource-set program ends through [log.Fatal]
    with the file system exactly as it found it when the number of
    arguments is wrong, when the build fails, and when the scan returns
    an error: in the last case nothing is written even for the tasks
    that were decoded before the error. *)
Theorem X20_resource_set_fatal_before_any_write (args : list string) (fs : FS) :
  (len args <> 2 ->
   ResourceSet.main Resource GetKind MarshalJSON json_Unmarshal krusty_Run
     Error args fs
   = (Fatal "usage: taskmd [kustomize-dir]", fs)) /\
  (forall err,
     len args = 2 ->
     krusty_Run fs (nth 1 args "") = Err err ->
     ResourceSet.main Resource GetKind MarshalJSON json_Unmarshal krusty_Run
       Error args fs
     = (Fatal (Error err), fs)) /\
  (forall resourceMap tasks err,
     len args = 2 ->
     krusty_Run fs (nth 1 args "") = Ok resourceMap ->
     ResourceSet.GetAllTasksFromResourceMap
       Resource GetKind MarshalJSON json_Unmarshal resourceMap
     = (tasks, Some err) ->
     ResourceSet.main Resource GetKind MarshalJSON json_Unmarshal krusty_Run
       Error args fs
     = (Fatal (Error err), fs)).
Proof.
  unfold ResourceSet.main, ResourceSet.run, ResourceSet.KustomizeBuild.
  split; [|split].
  - intros Hlen. apply Z.eqb_neq in Hlen. now rewrite Hlen.
  - intros err Hlen Hbuild. apply Z.eqb_eq in Hlen.
    now rewrite Hlen, Hbuild.
  - intros resourceMap tasks err Hlen Hbuild Hscan. apply Z.eqb_eq in Hlen.
    now rewrite Hlen, Hbuild, Hscan.
Qed.


End ResourceSetProgram.

Lemma X17_scan_ignores_the_rest_witness :
  ResourceSet.GetAllTasksFromResourceMap
    (string * string) fst (fun r => Ok r.2) toy_Unmarshal toy_resources
  = ResourceSet.GetAllTasksFromResourceMap
      (string * string) fst (fun r => Ok r.2) toy_Unmarshal
      [("Task", "name: build")].
Proof.
  apply (X17_scan_ignores_the_rest
           (string * string) fst (fun r => Ok r.2) toy_Unmarshal
           [("Task", "name: build")] ("Pipeline", "name: ci")
           [("Task", "name: test")]).
  - repeat constructor.
  - discriminate.
Defined.

Lemma X18_scan_all_tasks_witness :
  ResourceSet.GetAllTasksFromResourceMap
    (string * string) fst (fun r => Ok r.2) toy_Unmarshal
    [("Task", "name: build"); ("Task", "name: test")]
  = ([mkTask "build" (mkTaskSpec "" [] [] []);
      mkTask "test" (mkTaskSpec "" [] [] [])], None).
Proof.
  apply (X18_scan_all_tasks
           (string * string) fst (fun r => Ok r.2) toy_Unmarshal).
  repeat constructor.
Defined.

Lemma X19_scan_decode_error_witness :
  ResourceSet.GetAllTasksFromResourceMap
    (string * string) fst (fun r => Ok r.2) toy_Unmarshal
    [("Task", "name: build"); ("Task", "kind: ?"); ("Task", "name: test")]
  = ([mkTask "build" (mkTaskSpec "" [] [] [])],
     Some (DecodeError "no name")).
Proof.
  apply (X19_scan_decode_error
           (string * string) fst (fun r => Ok r.2) toy_Unmarshal
           [("Task", "name: build")] [mkTask "build" (mkTaskSpec "" [] [] [])]
           ("Task", "kind: ?") [("Task", "name: test")]).
  - repeat constructor.
  - reflexivity.
  - reflexivity.
Defined.

Lemma X20_resource_set_fatal_before_any_write_witness :
  ResourceSet.main (string * string) fst (fun r => Ok r.2) toy_Unmarshal
    toy_Run toy_Error ["taskmd"; "good"; "extra"] docs_fs
  = (Fatal "usage: taskmd [kustomize-dir]", docs_fs) /\
  ResourceSet.main (string * string) fst (fun r => Ok r.2) toy_Unmarshal
    toy_Run toy_Error ["taskmd"; "nowhere"] docs_fs
  = (Fatal "open nowhere", docs_fs) /\
  ResourceSet.main (string * string) fst (fun r => Ok r.2) toy_Unmarshal
    toy_Run toy_Error ["taskmd"; "bad"] docs_fs
  = (Fatal "no name", docs_fs).
Proof.
  split; [|split].
  - apply (proj1 (X20_resource_set_fatal_before_any_write
                    (string * string) fst (fun r => Ok r.2) toy_Unmarshal
                    toy_Run toy_Error ["taskmd"; "good"; "extra"] docs_fs)).
    unfold len. cbn [length]. lia.
  - apply (proj1 (proj2 (X20_resource_set_fatal_before_any_write
                           (string * string) fst (fun r => Ok r.2)
                           toy_Unmarshal toy_Run toy_Error
                           ["taskmd"; "nowhere"] docs_fs))
             (PathError "open" "nowhere")).
    + reflexivity.
    + reflexivity.
  - apply (proj2 (proj2 (X20_resource_set_fatal_before_any_write
                           (string * string) fst (fun r => Ok r.2)
                           toy_Unmarshal toy_Run toy_Error
                           ["taskmd"; "bad"] docs_fs))
             [("Task", "name: build"); ("Task", "kind: ?");
              ("Task", "name: test")]
             [mkTask "build" (mkTaskSpec "" [] [] [])]
             (DecodeError "no name")).
    + reflexivity.
    + reflexivity.
    + reflexivity.
Defined.

